(** * Gmail helpers: credential acquisition, message composition, sending

    A shallow embedding of [email_helpers/gmail_helpers.py] and the
    properties its specification states about it.

    Conventions of the embedding.
    - A Python [str] is a Rocq [string]; a character stands for a code
      point below 256.  A Python [bytes] value is a Rocq [string] too,
      one character per byte.  [PyStr] and [PyBytes] keep the two apart
      where the code hands one to a function expecting the other.
    - A function that can raise returns [res]; a function with effects
      (files, logging, calls to Google's libraries, the random module)
      runs in the monad [M] over [world].
    - Functions of libraries the module imports and whose result
      depends on the machine or on Google ([mimetypes.guess_type],
      [pickle], the OAuth flow, [os.path.expanduser], [as_string] with
      its random boundary) are variables of the sections that use them.
      The message objects of the [email] package are modelled as far as
      the module uses them, and its generator for messages of printable
      ASCII. *)

From Stdlib Require Import String Ascii List Arith ZArith Lia ZifyNat Bool.
From Stdlib Require Import DecimalString.
From stdpp Require Import base option gmap strings.

Set Warnings "-register-all".

Local Open Scope string_scope.
Local Open Scope list_scope.

(** ** Python strings *)

Module Py.

Definition NL : string := String (ascii_of_nat 10) "".
Definition CR : ascii := ascii_of_nat 13.
Definition LF : ascii := ascii_of_nat 10.
Definition DQUOTE : ascii := ascii_of_nat 34.

(** The text between double quotes. *)
Definition dquoted (s : string) : string :=
  String DQUOTE (s +:+ String DQUOTE "").

(** [sep.join(l)] *)
Fixpoint join (sep : string) (l : list string) : string :=
  match l with
  | [] => ""
  | x :: t => match t with
              | [] => x
              | _ :: _ => x +:+ sep +:+ join sep t
              end
  end.

(** [s.split(sep)] for a separator of one character: every occurrence
    cuts, empty pieces are kept, so the result is never empty. *)
Fixpoint split (sep : ascii) (s : string) : list string :=
  match s with
  | EmptyString => [""]
  | String c t =>
      if Ascii.eqb c sep then "" :: split sep t
      else match split sep t with
           | [] => [String c ""]
           | h :: r => String c h :: r
           end
  end.

(** [s.endswith(suffix)]: some tail of [s] is [suffix]. *)
Fixpoint endswith (s suffix : string) : bool :=
  String.eqb s suffix ||
  match s with
  | EmptyString => false
  | String _ t => endswith t suffix
  end.

(** [prefix] starts [s]. *)
Fixpoint startswith (s prefix : string) {struct prefix} : bool :=
  match prefix with
  | EmptyString => true
  | String p prefix' =>
      match s with
      | EmptyString => false
      | String c s' => Ascii.eqb p c && startswith s' prefix'
      end
  end.

(** [needle in s] *)
Fixpoint contains (needle s : string) : bool :=
  startswith s needle ||
  match s with
  | EmptyString => false
  | String _ t => contains needle t
  end.

(** [s.encode()]: UTF-8, two bytes for a code point from 128 to 255. *)
Fixpoint encode (s : string) : string :=
  match s with
  | EmptyString => EmptyString
  | String c t =>
      let n := nat_of_ascii c in
      if (n <? 128)%nat then String c (encode t)
      else String (ascii_of_nat (192 + n / 64)%nat)
             (String (ascii_of_nat (128 + n mod 64)%nat) (encode t))
  end.

Definition is_ascii (s : string) : bool :=
  forallb (fun c => (nat_of_ascii c <? 128)%nat) (list_ascii_of_string s).

End Py.

(** ** base64 *)

Module Base64.

Definition urlsafe_alphabet : string :=
  "ABCDEFGHIJKLMNOPQRSTUVWXYZabcdefghijklmnopqrstuvwxyz0123456789-_".

Definition standard_alphabet : string :=
  "ABCDEFGHIJKLMNOPQRSTUVWXYZabcdefghijklmnopqrstuvwxyz0123456789+/".

Definition pad : ascii := "="%char.

Definition digit (alphabet : string) (n : nat) : ascii :=
  match String.get n alphabet with
  | Some c => c
  | None => pad
  end.

Fixpoint index_from (i : nat) (alphabet : string) (c : ascii) : option nat :=
  match alphabet with
  | EmptyString => None
  | String a t => if Ascii.eqb a c then Some i else index_from (S i) t c
  end.

Definition value (alphabet : string) (c : ascii) : option nat :=
  index_from 0 alphabet c.

(** Three bytes give four digits; one or two trailing bytes give two or
    three digits and padding. *)
Fixpoint encode_with (alphabet : string) (s : string) : string :=
  let d := digit alphabet in
  match s with
  | EmptyString => EmptyString
  | String a EmptyString =>
      let a := nat_of_ascii a in
      String (d (a / 4)) (String (d (a mod 4 * 16)) (String pad (String pad "")))
  | String a (String b EmptyString) =>
      let a := nat_of_ascii a in
      let b := nat_of_ascii b in
      String (d (a / 4)) (String (d (a mod 4 * 16 + b / 16))
        (String (d (b mod 16 * 4)) (String pad "")))
  | String a (String b (String c t)) =>
      let a := nat_of_ascii a in
      let b := nat_of_ascii b in
      let c := nat_of_ascii c in
      String (d (a / 4)) (String (d (a mod 4 * 16 + b / 16))
        (String (d (b mod 16 * 4 + c / 64)) (String (d (c mod 64))
          (encode_with alphabet t))))
  end.

(** Decoding of padded text in groups of four; [None] where the text is
    not of that form.  On the text [encode_with] emits this is what the
    library's decoder returns. *)
Fixpoint decode_with (alphabet : string) (s : string) : option string :=
  let v := value alphabet in
  match s with
  | EmptyString => Some EmptyString
  | String c1 (String c2 (String c3 (String c4 t))) =>
      match v c1, v c2 with
      | Some n1, Some n2 =>
          let b1 := ascii_of_nat (n1 * 4 + n2 / 16) in
          if Ascii.eqb c4 pad then
            match t with
            | EmptyString =>
                if Ascii.eqb c3 pad then Some (String b1 "")
                else match v c3 with
                     | Some n3 =>
                         Some (String b1
                                 (String (ascii_of_nat (n2 mod 16 * 16 + n3 / 4)) ""))
                     | None => None
                     end
            | String _ _ => None
            end
          else
            match v c3, v c4, decode_with alphabet t with
            | Some n3, Some n4, Some r =>
                Some (String b1
                        (String (ascii_of_nat (n2 mod 16 * 16 + n3 / 4))
                           (String (ascii_of_nat (n3 mod 4 * 64 + n4)) r)))
            | _, _, _ => None
            end
      | _, _ => None
      end
  | _ => None
  end.

(** [base64.urlsafe_b64encode] and [base64.urlsafe_b64decode] *)
Definition urlsafe_b64encode : string -> string := encode_with urlsafe_alphabet.
Definition urlsafe_b64decode : string -> option string := decode_with urlsafe_alphabet.

End Base64.

(** ** Exceptions and results *)

(** An exception object: its class, the classes it derives from, and
    [str(err)]. *)
Record exn := Exn {
  exn_class : string;
  exn_bases : list string;
  exn_message : string
}.

(** [isinstance(err, cls)] *)
Definition isinstance (e : exn) (cls : string) : bool :=
  existsb (String.eqb cls) (exn_class e :: exn_bases e).

Definition os_error_bases : list string := ["OSError"; "Exception"; "BaseException"].

Definition FileNotFoundError (path : string) : exn :=
  Exn "FileNotFoundError" os_error_bases
      ("[Errno 2] No such file or directory: '" +:+ path +:+ "'").

Definition PermissionError (path : string) : exn :=
  Exn "PermissionError" os_error_bases
      ("[Errno 13] Permission denied: '" +:+ path +:+ "'").

Definition AttributeError (msg : string) : exn :=
  Exn "AttributeError" ["Exception"; "BaseException"] msg.

Definition ValueError (msg : string) : exn :=
  Exn "ValueError" ["Exception"; "BaseException"] msg.

Inductive res (A : Type) : Type :=
| Ok (a : A)
| Raise (e : exn).
Arguments Ok {A} a.
Arguments Raise {A} e.

(** ** Credentials and the world the module acts on *)

(** What the module reads of a [google.oauth2.credentials.Credentials]
    object: the [expired] property and the [refresh_token] attribute. *)
Record credentials := Credentials {
  token : string;
  refresh_token : option string;
  expired : bool
}.

(** A value [pickle.load] can hand back from the token file. *)
Inductive pyobj :=
| PyNone
| PyCredentials (c : credentials).

(** Truth value of an object: [None] is false, a credentials object
    (no [__bool__], no [__len__]) is true. *)
Definition truthy (o : pyobj) : bool :=
  match o with
  | PyNone => false
  | PyCredentials _ => true
  end.

(** Truth value of an attribute that is [None] or a [str]. *)
Definition truthy_str (o : option string) : bool :=
  match o with
  | None => false
  | Some s => negb (String.eqb s "")
  end.

(** The default list objects of [build_msg_obj]: created once, when the
    function is defined, and shared by every call that omits the
    argument. *)
Record fn_defaults := FnDefaults {
  default_email_cc : list string;
  default_email_bcc : list string;
  default_email_attachments : list string
}.

(** What the module does to the outside, in the order it happens. *)
Inductive event :=
| EvLog (level msg : string)
| EvExists (path : string)
| EvRead (path : string)
| EvWrite (path data : string)
| EvInteractiveFlow (flow_secrets : string)
| EvRefresh (c : credentials)
| EvSend (user_id : string) (body : gmap string string).

Record world := World {
  files : gmap string string;        (* path to content *)
  deny_read : gset string;           (* paths [open(p, "rb")] refuses *)
  deny_write : gset string;          (* paths [open(p, "wb")] refuses *)
  events : list event;
  random_state : nat;                (* state of the [random] module *)
  defaults : fn_defaults
}.

Definition with_files (f : gmap string string) (w : world) : world :=
  World f (deny_read w) (deny_write w) (events w) (random_state w) (defaults w).

Definition with_events (e : list event) (w : world) : world :=
  World (files w) (deny_read w) (deny_write w) e (random_state w) (defaults w).

Definition with_random_state (r : nat) (w : world) : world :=
  World (files w) (deny_read w) (deny_write w) (events w) r (defaults w).

(** ** The monad of effects *)

Definition M (A : Type) : Type := world -> res A * world.

Definition ret {A} (a : A) : M A := fun w => (Ok a, w).

Definition raise {A} (e : exn) : M A := fun w => (Raise e, w).

Definition lift {A} (r : res A) : M A := fun w => (r, w).

Definition bind {A B} (m : M A) (k : A -> M B) : M B :=
  fun w =>
    match m w with
    | (Ok a, w') => k a w'
    | (Raise e, w') => (Raise e, w')
    end.

Notation "'let*' x ':=' m 'in' k" := (bind m (fun x => k))
  (at level 10, x name, m at level 100, k at level 200).
Notation "'do' m 'then' k" := (bind m (fun _ => k))
  (at level 10, m at level 100, k at level 200).

Definition emit (e : event) : M unit :=
  fun w => (Ok tt, with_events (events w ++ [e]) w).

(** [try: m  except Exception as err: h err] *)
Definition try_except_Exception {A} (m : M A) (h : exn -> M A) : M A :=
  fun w =>
    match m w with
    | (Ok a, w') => (Ok a, w')
    | (Raise e, w') =>
        if isinstance e "Exception" then h e w' else (Raise e, w')
    end.

(** [for x in l: acc = body x acc] *)
Fixpoint for_each {A B} (l : list A) (body : A -> B -> M B) (acc : B) : M B :=
  match l with
  | [] => ret acc
  | x :: t => let* acc' := body x acc in for_each t body acc'
  end.

(** ** Files and logging *)

Definition logging_info (msg : string) : M unit := emit (EvLog "INFO" msg).

(** [logging.exception]: a record of level ERROR. *)
Definition logging_exception (msg : string) : M unit := emit (EvLog "ERROR" msg).

(** [os.path.exists(path)] *)
Definition os_path_exists (path : string) : M bool :=
  do emit (EvExists path) then
  fun w => (Ok (bool_decide (is_Some (files w !! path))), w).

(** [with open(path, "rb") as f: f.read()] *)
Definition open_rb_read (path : string) : M string :=
  fun w =>
    match files w !! path with
    | None => (Raise (FileNotFoundError path), w)
    | Some data =>
        if bool_decide (path ∈ deny_read w) then (Raise (PermissionError path), w)
        else (Ok data, with_events (events w ++ [EvRead path]) w)
    end.

(** [with open(path, "wb") as f: f.write(data)] *)
Definition open_wb_write (path data : string) : M unit :=
  fun w =>
    if bool_decide (path ∈ deny_write w) then (Raise (PermissionError path), w)
    else (Ok tt, with_events (events w ++ [EvWrite path data])
                   (with_files (<[path := data]> (files w)) w)).

(** ** The [email] package

    Message objects under the [compat32] policy, as far as the module
    uses them: a list of headers in the order they were set, names as
    they were given, and a payload. *)

Definition header : Type := string * string.

Inductive payload :=
| NoPayload                 (* [_payload is None] *)
| Text (s : string)         (* a [str] *)
| Escaped (b : string).     (* [b.decode('ascii', 'surrogateescape')] *)

Inductive message :=
| Part (headers : list header) (body : payload)
| Multipart (headers : list header) (parts : list message).

Definition msg_headers (m : message) : list header :=
  match m with
  | Part h _ => h
  | Multipart h _ => h
  end.

Definition set_headers (h : list header) (m : message) : message :=
  match m with
  | Part _ p => Part h p
  | Multipart _ ps => Multipart h ps
  end.

(** An argument that the library wants as [str] and the caller may pass
    as [bytes]. *)
Inductive pyval :=
| PyStr (s : string)
| PyBytes (b : string).

Module Email.

(** [msg[name] = value]: appended, whatever is already there. *)
Definition setitem (name value : string) (m : message) : message :=
  set_headers (msg_headers m ++ [(name, value)]) m.

(** [email.utils.quote] *)
Fixpoint quote (s : string) : string :=
  match s with
  | EmptyString => EmptyString
  | String c t =>
      if Ascii.eqb c "\"%char || Ascii.eqb c Py.DQUOTE
      then String "\"%char (String c (quote t))
      else String c (quote t)
  end.

Definition hex_digit (n : nat) : ascii :=
  match String.get n "0123456789ABCDEF" with
  | Some c => c
  | None => "0"%char
  end.

Definition is_unreserved (c : ascii) : bool :=
  let n := nat_of_ascii c in
  ((65 <=? n) && (n <=? 90) || (97 <=? n) && (n <=? 122) ||
   (48 <=? n) && (n <=? 57) ||
   (n =? 95) || (n =? 46) || (n =? 45) || (n =? 126))%nat.

(** [urllib.parse.quote(bytes, safe='')] *)
Fixpoint percent_encode (b : string) : string :=
  match b with
  | EmptyString => EmptyString
  | String c t =>
      if is_unreserved c then String c (percent_encode t)
      else
        let n := nat_of_ascii c in
        String "%"%char
          (String (hex_digit (n / 16)%nat)
             (String (hex_digit (n mod 16)%nat) (percent_encode t)))
  end.

(** [email.message._formatparam(param, value, quote=True)] *)
Definition formatparam (param value : string) : string :=
  if String.eqb value "" then param
  else if Py.is_ascii value
       then param +:+ "=" +:+ Py.dquoted (quote value)
       else param +:+ "*=utf-8''" +:+ percent_encode (Py.encode value).

(** [msg.add_header(name, value, **params)] *)
Definition add_header (name value : string) (params : list (string * string))
    (m : message) : message :=
  setitem name
    (Py.join "; " (value :: map (fun kv => formatparam (fst kv) (snd kv)) params)) m.

(** [msg.attach(part)] *)
Definition attach (part : message) (m : message) : res message :=
  match m with
  | Multipart h ps => Ok (Multipart h (ps ++ [part]))
  | Part h NoPayload => Ok (Multipart h [part])
  | Part _ _ =>
      Raise (Exn "TypeError" ["Exception"; "BaseException"]
               "Attach is not valid on a message with a non-multipart payload")
  end.

(** [MIMEBase(maintype, subtype, **params)] *)
Definition MIMEBase (maintype subtype : string) (params : list (string * string))
  : message :=
  setitem "MIME-Version" "1.0"
    (add_header "Content-Type" (maintype +:+ "/" +:+ subtype) params
       (Part [] NoPayload)).

(** [MIMEMultipart()] *)
Definition MIMEMultipart : message :=
  Multipart (msg_headers (MIMEBase "multipart" "mixed" [])) [].

(** Pieces of at most [n] characters. *)
Fixpoint chunks (fuel n : nat) (s : string) : list string :=
  match fuel with
  | O => []
  | S fuel' =>
      if String.eqb s "" then []
      else substring 0 n s :: chunks fuel' n (substring n (String.length s - n) s)
  end.

(** [base64.encodebytes]: every 57 bytes give a line of 76 digits. *)
Definition encodebytes (b : string) : string :=
  String.concat ""
    (map (fun piece => Base64.encode_with Base64.standard_alphabet piece +:+ Py.NL)
       (chunks (String.length b) 57 b)).

(** [email.encoders.encode_base64] after [set_payload(data)] *)
Definition base64_part (maintype subtype : string) (data : string) : message :=
  setitem "Content-Transfer-Encoding" "base64"
    (set_headers (msg_headers (MIMEBase maintype subtype []))
       (Part [] (Text (encodebytes data)))).

(** [MIMEImage(data, _subtype=subtype)] *)
Definition MIMEImage (data subtype : string) : message :=
  base64_part "image" subtype data.

(** [MIMEAudio(data, _subtype=subtype)] *)
Definition MIMEAudio (data subtype : string) : message :=
  base64_part "audio" subtype data.

(** [MIMEApplication(data, _subtype=subtype)] *)
Definition MIMEApplication (data subtype : string) : message :=
  base64_part "application" subtype data.

(** [msg.set_payload(data)] for [bytes] and no charset. *)
Definition set_payload_bytes (data : string) (m : message) : message :=
  match m with
  | Part h _ => Part h (Escaped data)
  | Multipart h _ => Part h (Escaped data)
  end.

(** [MIMEText(_text, _subtype)]: the constructor starts with
    [_text.encode('us-ascii')], which [bytes] does not have. *)
Definition MIMEText (_text : pyval) (_subtype : string) : res message :=
  match _text with
  | PyBytes _ =>
      Raise (AttributeError "'bytes' object has no attribute 'encode'")
  | PyStr s =>
      if Py.is_ascii s then
        Ok (setitem "Content-Transfer-Encoding" "7bit"
              (set_headers
                 (msg_headers (MIMEBase "text" _subtype [("charset", "us-ascii")]))
                 (Part [] (Text s))))
      else
        Ok (setitem "Content-Transfer-Encoding" "base64"
              (set_headers
                 (msg_headers (MIMEBase "text" _subtype [("charset", "utf-8")]))
                 (Part [] (Text (encodebytes (Py.encode s))))))
  end.

End Email.

(** *** The generator, on plain messages

    [msg.as_string()] runs [email.generator.Generator] with
    [mangle_from_=False] and [maxheaderlen=0].  [flatten] is what it
    writes for a message whose header values are printable ASCII
    (written unchanged and unfolded) and whose parts are not themselves
    multipart; it is [None] on any other message, whose text
    [as_string] takes from its parameter. *)

Module Generator.

Definition printable (s : string) : bool :=
  forallb (fun c => (32 <=? nat_of_ascii c)%nat && (nat_of_ascii c <=? 126)%nat)
    (list_ascii_of_string s).

(** [policy.fold(name, value)] *)
Definition fold (h : header) : option string :=
  if printable (snd h) then Some (fst h +:+ ": " +:+ snd h +:+ Py.NL) else None.

Fixpoint write_headers (hs : list header) : option string :=
  match hs with
  | [] => Some ""
  | h :: t =>
      match fold h, write_headers t with
      | Some l, Some r => Some (l +:+ r)
      | _, _ => None
      end
  end.

(** [_write_lines]: every line ending becomes a line feed. *)
Fixpoint write_lines (s : string) : string :=
  match s with
  | EmptyString => EmptyString
  | String c t =>
      if Ascii.eqb c Py.CR then
        match t with
        | String c' t' =>
            if Ascii.eqb c' Py.LF then String Py.LF (write_lines t')
            else String Py.LF (write_lines t)
        | EmptyString => String Py.LF EmptyString
        end
      else String c (write_lines t)
  end.

Definition write_payload (p : payload) : option string :=
  match p with
  | NoPayload => Some ""
  | Text s => Some (write_lines s)
  | Escaped b => if Py.is_ascii b then Some (write_lines b) else None
  end.

Definition lower_char (c : ascii) : ascii :=
  let n := nat_of_ascii c in
  if ((65 <=? n) && (n <=? 90))%nat then ascii_of_nat (n + 32) else c.

Fixpoint lower (s : string) : string :=
  match s with
  | EmptyString => EmptyString
  | String c t => String (lower_char c) (lower t)
  end.

(** [msg.set_boundary(b)] on a Content-Type value without parameters. *)
Definition set_boundary (b : string) (hs : list header) : list header :=
  map (fun h =>
         if String.eqb (lower (fst h)) "content-type"
         then (fst h, snd h +:+ "; boundary=" +:+ Py.dquoted b)
         else h) hs.

Definition flatten_part (m : message) : option string :=
  match m with
  | Part hs p =>
      match write_headers hs, write_payload p with
      | Some h, Some b => Some (h +:+ Py.NL +:+ b)
      | _, _ => None
      end
  | Multipart _ _ => None
  end.

Fixpoint flatten_parts (ps : list message) : option (list string) :=
  match ps with
  | [] => Some []
  | p :: t =>
      match flatten_part p, flatten_parts t with
      | Some x, Some r => Some (x :: r)
      | _, _ => None
      end
  end.

Definition flatten (boundary : string) (m : message) : option string :=
  match m with
  | Part _ _ => flatten_part m
  | Multipart hs ps =>
      match flatten_parts ps, write_headers (set_boundary boundary hs) with
      | Some texts, Some h =>
          let delim := "--" +:+ boundary in
          Some (h +:+ Py.NL +:+ delim +:+ Py.NL +:+
                Py.join (Py.NL +:+ delim +:+ Py.NL) texts +:+
                Py.NL +:+ delim +:+ "--" +:+ Py.NL)
      | _, _ => None
      end
  end.

(** The header block of the serialised text: one folded line per
    header, in order. *)
Definition header_lines (boundary : string) (m : message) : list (option string) :=
  match m with
  | Part hs _ => map fold hs
  | Multipart hs _ => map fold (set_boundary boundary hs)
  end.

(** [_make_boundary]: fifteen [=], the token drawn from the random
    module in nineteen digits, two [=].  (The library lengthens the
    boundary when the text happens to contain it.) *)
Fixpoint zeros (n : nat) : string :=
  match n with
  | O => ""
  | S n' => String "0" (zeros n')
  end.

Definition zero_pad (width : nat) (s : string) : string :=
  zeros (width - String.length s) +:+ s.

Definition make_boundary (token : nat) : string :=
  "===============" +:+
  zero_pad 19 (NilEmpty.string_of_uint (Nat.to_uint token)) +:+ "==".

(** [as_string]: for a plain message the text [flatten] gives.  For the
    other messages (a header value outside printable ASCII, raw bytes
    above 127, nested multiparts) the text the library writes is not
    modelled here: it is [beyond], a parameter. *)
Definition as_string (beyond : nat -> message -> res string)
    (r : nat) (m : message) : res string :=
  match flatten (make_boundary r) m with
  | Some s => Ok s
  | None => beyond r m
  end.

End Generator.

(** ** Credentials functions *)

Section CredentialsFunctions.

(** [os.path.expanduser] *)
Variable expanduser : string -> string.

(** [pickle.loads] and [pickle.dumps] on the content of the token file *)
Variable pickle_loads : string -> res pyobj.
Variable pickle_dumps : credentials -> string.

(** [InstalledAppFlow.from_client_secrets_file], given the content of the
    file and the scopes, and [flow.run_local_server(port=0)] *)
Variable Flow : Type.
Variable from_client_secrets : string -> list string -> res Flow.
Variable run_local_server : Flow -> res credentials.

(** [credentials.refresh(Request())]: the state of the object after the
    call, or what the call raised. *)
Variable refresh : credentials -> res credentials.

(** [pickle.load(token)] under [with open(path, 'rb') as token] *)
Definition pickle_load (path : string) : M pyobj :=
  let* data := open_rb_read path in
  lift (pickle_loads data).

(** [pickle.dump(obj, token)] under [with open(path, "wb") as token] *)
Definition pickle_dump (c : credentials) (path : string) : M unit :=
  open_wb_write path (pickle_dumps c).

Definition generate_gmail_token (gmail_credentials_file : string) : M credentials :=
  let* secrets := open_rb_read (expanduser gmail_credentials_file) in
  let* flow := lift (from_client_secrets secrets ["https://mail.google.com/"]) in
  do emit (EvInteractiveFlow secrets) then
  let* gmail_credentials := lift (run_local_server flow) in
  ret gmail_credentials.

(** [gmail_credentials.refresh(Request())] *)
Definition credentials_refresh (c : credentials) : M credentials :=
  do emit (EvRefresh c) then
  lift (refresh c).

Definition get_gmail_credentials
    (gmail_credentials_file gmail_token_file : string) : M credentials :=
  do logging_info "Getting Gmail Credentials" then
  let gmail_credentials_file := expanduser gmail_credentials_file in
  let gmail_token_file := expanduser gmail_token_file in
  (* Load Pickled Gmail Token from file on disk *)
  let* token_exists := os_path_exists gmail_token_file in
  let* gmail_credentials :=
    (if token_exists : bool then pickle_load gmail_token_file else ret PyNone) in
  (* Generate/Refresh Token in Gmail *)
  if negb (truthy gmail_credentials) then
    let* gmail_credentials := generate_gmail_token gmail_credentials_file in
    do pickle_dump gmail_credentials gmail_token_file then
    ret gmail_credentials
  else
    match gmail_credentials with
    | PyNone =>
        raise (AttributeError "'NoneType' object has no attribute 'expired'")
    | PyCredentials c =>
        if expired c && truthy_str (refresh_token c) then
          let* c := credentials_refresh c in
          do pickle_dump c gmail_token_file then
          ret c
        else if expired c && negb (truthy_str (refresh_token c)) then
          let* c := generate_gmail_token gmail_credentials_file in
          do pickle_dump c gmail_token_file then
          ret c
        else ret c
    end.

(** *** The credential state machine, as the specification words it

    States: absent; valid and not expired; valid, expired and refreshable;
    valid, expired and not refreshable.  Transitions: interactive
    authorisation, refresh, or none. *)

Inductive cred_state :=
| Absent
| ValidNotExpired (c : credentials)
| ExpiredRefreshable (c : credentials)
| ExpiredNonRefreshable (c : credentials).

Inductive transition :=
| InteractiveAuth
| NoOp
| RefreshToken.

(** The state a cached object is in; a credential carries a refresh
    token when the attribute is a non-empty string. *)
Definition state_of (cached : pyobj) : cred_state :=
  match cached with
  | PyNone => Absent
  | PyCredentials c =>
      if negb (expired c) then ValidNotExpired c
      else if truthy_str (refresh_token c) then ExpiredRefreshable c
      else ExpiredNonRefreshable c
  end.

Definition spec_transition (s : cred_state) : transition :=
  match s with
  | Absent => InteractiveAuth
  | ValidNotExpired _ => NoOp
  | ExpiredRefreshable _ => RefreshToken
  | ExpiredNonRefreshable _ => InteractiveAuth
  end.

(** Step 1: if a cached token file exists, deserialise it. *)
Definition spec_load (token_file : string) : M cred_state :=
  let* token_exists := os_path_exists token_file in
  if token_exists : bool then
    let* cached := pickle_load token_file in ret (state_of cached)
  else ret Absent.

(** The interactive flow, then persistence (steps 2 and 4). *)
Definition interactive_auth (credentials_file token_file : string) : M credentials :=
  let* c := generate_gmail_token credentials_file in
  do pickle_dump c token_file then ret c.

(** The refresh, then persistence (step 3). *)
Definition refresh_and_persist (c : credentials) (token_file : string)
  : M credentials :=
  let* c := credentials_refresh c in
  do pickle_dump c token_file then ret c.

(** Steps 2 to 5, by state. *)
Definition spec_step (credentials_file token_file : string) (s : cred_state)
  : M credentials :=
  match s with
  | Absent => interactive_auth credentials_file token_file
  | ValidNotExpired c => ret c
  | ExpiredRefreshable c => refresh_and_persist c token_file
  | ExpiredNonRefreshable c => interactive_auth credentials_file token_file
  end.

(** The state of the cache in a world, read off the token file: absent
    when there is no file (or the file holds [None]); [None] when the
    file cannot be read or does not unpickle. *)
Definition cache_state (w : world) (token_file : string) : option cred_state :=
  match files w !! token_file with
  | None => Some Absent
  | Some data =>
      if bool_decide (token_file ∈ deny_read w) then None
      else match pickle_loads data with
           | Ok cached => Some (state_of cached)
           | Raise _ => None
           end
  end.

Definition spec_acquire (credentials_file token_file : string) : M credentials :=
  do logging_info "Getting Gmail Credentials" then
  let* s := spec_load (expanduser token_file) in
  spec_step (expanduser credentials_file) (expanduser token_file) s.

End CredentialsFunctions.

(** The transitions a run performed, read off its events. *)
Definition transition_of (e : event) : option transition :=
  match e with
  | EvInteractiveFlow _ => Some InteractiveAuth
  | EvRefresh _ => Some RefreshToken
  | _ => None
  end.

Definition transitions (evs : list event) : list transition :=
  omap transition_of evs.

(** What a run in a state may perform: its transition, once. *)
Definition expected_transitions (t : transition) : list transition :=
  match t with
  | NoOp => []
  | InteractiveAuth => [InteractiveAuth]
  | RefreshToken => [RefreshToken]
  end.

Definition is_write (e : event) : bool :=
  match e with
  | EvWrite _ _ => true
  | _ => false
  end.

(** The world after the token file was found and read. *)
Definition after_load (tf : string) (w : world) : world :=
  with_events
    (events w ++ [EvLog "INFO" "Getting Gmail Credentials"; EvExists tf; EvRead tf]) w.

(** What acquisition records before it looks at the cached object: the
    log record, the test for the token file and, when the file is there
    and readable, its reading. *)
Definition load_events (w : world) (tf : string) : list event :=
  [EvLog "INFO" "Getting Gmail Credentials"; EvExists tf] ++
  match files w !! tf with
  | Some _ => [EvRead tf]
  | None => []
  end.

(** The events a run added to the world it started in. *)
Definition new_events (w w' : world) : list event :=
  drop (length (events w)) (events w').

(** ** Gmail connection functions *)

Section ConnectionFunctions.

(** [googleapiclient.discovery.build] *)
Variable Service : Type.
Variable build : string -> string -> credentials -> res Service.

Definition get_gmail_service (gmail_credentials : credentials) : res Service :=
  build "gmail" "v1" gmail_credentials.

End ConnectionFunctions.

(** ** Sending functions *)

(** A connected service object, seen through the one request the module
    makes: [users().messages().send(userId=.., body=..).execute()]. *)
Record gmail_service := GmailService {
  send_execute : string -> gmap string string -> res (gmap string string)
}.

Definition send_email (service : gmail_service) (email_msg : gmap string string)
  : M unit :=
  do logging_info "Sending Email through Gmail" then
  try_except_Exception
    (do emit (EvSend "me" email_msg) then
     let* _ := lift (send_execute service "me" email_msg) in
     ret tt)
    (fun err =>
       do logging_exception
            ("Error: unable to send email through gmail: " +:+ exn_message err) then
       raise err).

(** ** Build message functions *)

Section BuildMessageFunctions.

(** [mimetypes.guess_type]: the guessed type and the guessed encoding. *)
Variable guess_type : string -> option string * option string.

(** [email_msg.as_string()], given the state of the random module, from
    which the generator draws the boundary. *)
Variable as_string : nat -> message -> res string.

(** [main_type, sub_type = content_type.split("/")] *)
Definition unpack2 (l : list string) : res (string * string) :=
  match l with
  | [a; b] => Ok (a, b)
  | [] | [_] => Raise (ValueError "not enough values to unpack (expected 2, got 1)")
  | _ => Raise (ValueError "too many values to unpack (expected 2)")
  end.

(** The guess of [encode_attachment_for_email], with its two fix-ups. *)
Definition guessed_content_type (attachment_filename : string) : string :=
  let (content_type, encoding) := guess_type attachment_filename in
  let content_type :=
    match content_type, encoding with
    | Some t, None => t
    | _, _ => "application/octet-stream"
    end in
  if Py.endswith attachment_filename ".xlsx" then "application/vnd-xls"
  else content_type.

Definition encode_attachment_for_email (attachment_filename : string) : M message :=
  (* Guess Encoding *)
  let content_type := guessed_content_type attachment_filename in
  let* types := lift (unpack2 (Py.split "/" content_type)) in
  let main_type := fst types in
  let sub_type := snd types in
  (* Prepare Attachment *)
  let* data := open_rb_read attachment_filename in
  if String.eqb main_type "text" then
    lift (Email.MIMEText (PyBytes data) sub_type)
  else if String.eqb main_type "image" then
    ret (Email.MIMEImage data sub_type)
  else if String.eqb main_type "audio" then
    ret (Email.MIMEAudio data sub_type)
  else if String.eqb sub_type "vnd-xls" then
    ret (Email.MIMEApplication data sub_type)
  else
    ret (Email.set_payload_bytes data (Email.MIMEBase main_type sub_type [])).

(** An optional list argument: the caller's list, or the default object. *)
Definition arg_or_default (field : fn_defaults -> list string)
    (arg : option (list string)) : M (list string) :=
  match arg with
  | Some l => ret l
  | None => fun w => (Ok (field (defaults w)), w)
  end.

(** The body of [build_msg_obj] up to the last attachment: the container
    before it is serialised. *)
Definition build_container (email_from email_subject email_body : string)
    (email_to : list string) (email_cc email_bcc email_attachments : option (list string))
  : M message :=
  let* email_cc := arg_or_default default_email_cc email_cc in
  let* email_bcc := arg_or_default default_email_bcc email_bcc in
  let* email_attachments := arg_or_default default_email_attachments email_attachments in
  do logging_info "Building Email" then
  (* Create Email Metadata *)
  let email_msg := Email.MIMEMultipart in
  let email_msg := Email.setitem "subject" email_subject email_msg in
  let email_msg := Email.setitem "from" email_from email_msg in
  let email_msg := Email.setitem "to" (Py.join ", " email_to) email_msg in
  let email_msg :=
    Email.setitem "cc"
      (match email_cc with [] => "" | _ => Py.join ", " email_cc end) email_msg in
  let email_msg :=
    Email.setitem "bcc"
      (match email_bcc with [] => "" | _ => Py.join ", " email_bcc end) email_msg in
  (* Create Message Body *)
  let* body := lift (Email.MIMEText (PyStr email_body) "plain") in
  let* email_msg := lift (Email.attach body email_msg) in
  (* Handle Attachment *)
  for_each email_attachments
    (fun attachment_filename email_msg =>
       let* attachment := encode_attachment_for_email attachment_filename in
       let attachment :=
         Email.add_header "Content-Disposition" "attachment"
           [("filename", attachment_filename)] attachment in
       lift (Email.attach attachment email_msg))
    email_msg.

(** [email_msg.as_string()] *)
Definition msg_as_string (email_msg : message) : M string :=
  fun w => (as_string (random_state w) email_msg,
            with_random_state (S (random_state w)) w).

Definition build_msg_obj (email_from email_subject email_body : string)
    (email_to : list string) (email_cc email_bcc email_attachments : option (list string))
  : M (gmap string string) :=
  let* email_msg :=
    build_container email_from email_subject email_body email_to
      email_cc email_bcc email_attachments in
  let* text := msg_as_string email_msg in
  ret {[ "raw" := Base64.urlsafe_b64encode (Py.encode text) ]}.

End BuildMessageFunctions.

(** ** Notions the properties are stated with *)

(** [w'] is [w] but for the events recorded. *)
Definition only_events (w w' : world) : Prop :=
  w' = with_events (events w') w.

(** [w] and [w'] hold the same files, with the same read permissions,
    and the same default objects. *)
Definition same_inputs (w w' : world) : Prop :=
  files w = files w' /\ deny_read w = deny_read w' /\ defaults w = defaults w'.

(** [open(path, "rb")] fails in [w]: the file is missing or may not be
    read. *)
Definition unreadable (w : world) (path : string) : Prop :=
  files w !! path = None \/ path ∈ deny_read w.

(** What [open(path, "rb")] raises then. *)
Definition io_error_of (w : world) (path : string) : exn :=
  match files w !! path with
  | None => FileNotFoundError path
  | Some _ => PermissionError path
  end.

(** What the attachment is built from, once the file is read. *)
Definition encoded (main_type sub_type data : string) : res message :=
  if String.eqb main_type "text" then Email.MIMEText (PyBytes data) sub_type
  else if String.eqb main_type "image" then Ok (Email.MIMEImage data sub_type)
  else if String.eqb main_type "audio" then Ok (Email.MIMEAudio data sub_type)
  else if String.eqb sub_type "vnd-xls" then Ok (Email.MIMEApplication data sub_type)
  else Ok (Email.set_payload_bytes data (Email.MIMEBase main_type sub_type [])).

(** The headers [build_msg_obj] gives the container, in order. *)
Definition container_headers (email_from email_subject : string)
    (email_to email_cc email_bcc : list string) : list header :=
  [("Content-Type", "multipart/mixed"); ("MIME-Version", "1.0");
   ("subject", email_subject); ("from", email_from);
   ("to", Py.join ", " email_to); ("cc", Py.join ", " email_cc);
   ("bcc", Py.join ", " email_bcc)].

(** The list an optional argument stands for in a world. *)
Definition resolve (field : fn_defaults -> list string) (w : world)
    (arg : option (list string)) : list string :=
  match arg with
  | Some l => l
  | None => field (defaults w)
  end.

(** [msg[name]]: the value of the first header of that name, names
    compared without regard to case; [None] when there is none. *)
Definition get_header (name : string) (m : message) : option string :=
  snd <$> List.find
            (fun h => String.eqb (Generator.lower (fst h)) (Generator.lower name))
            (msg_headers m).

(** ** Instances for the examples *)

(** Every message the examples below serialise is plain, so what is
    put for the rest of the library's generator is never reached in
    them; it is fixed here to an error of no Python class. *)
Definition no_text (r : nat) (m : message) : res string :=
  Raise (Exn "NotPlain" [] "message outside the plain fragment").

Definition plain_as_string : nat -> message -> res string :=
  Generator.as_string no_text.

(** The end-to-end scenario: sender "a@x.com", To ["b@x.com"], subject
    "Test", body "Hello", no attachment.  The container the composer
    builds, and the text the generator writes for it with a given
    boundary. *)
Definition scenario_body_part : message :=
  Part [("Content-Type", "text/plain; charset=" +:+ Py.dquoted "us-ascii");
        ("MIME-Version", "1.0"); ("Content-Transfer-Encoding", "7bit")]
       (Text "Hello").

Definition scenario_message : message :=
  Multipart (container_headers "a@x.com" "Test" ["b@x.com"] [] [])
    [scenario_body_part].

Definition scenario_headers_text : string :=
  "MIME-Version: 1.0" +:+ Py.NL +:+ "subject: Test" +:+ Py.NL +:+
  "from: a@x.com" +:+ Py.NL +:+ "to: b@x.com" +:+ Py.NL +:+
  "cc: " +:+ Py.NL +:+ "bcc: " +:+ Py.NL.

Definition scenario_body_text : string :=
  "Content-Type: text/plain; charset=" +:+ Py.dquoted "us-ascii" +:+ Py.NL +:+
  "MIME-Version: 1.0" +:+ Py.NL +:+
  "Content-Transfer-Encoding: 7bit" +:+ Py.NL +:+ Py.NL +:+ "Hello".

Definition scenario_text (boundary : string) : string :=
  (("Content-Type: multipart/mixed; boundary=" +:+ Py.dquoted boundary +:+ Py.NL)
   +:+ scenario_headers_text) +:+
  Py.NL +:+ ("--" +:+ boundary) +:+ Py.NL +:+
  scenario_body_text +:+
  Py.NL +:+ ("--" +:+ boundary) +:+ "--" +:+ Py.NL.

(** A subject outside ASCII: "Caf" and an e with an acute accent. *)
Definition accented_subject : string :=
  "Caf" +:+ String (ascii_of_nat 233) "".

(** A world with no file, nothing logged, and the default lists as the
    [def] statement creates them. *)
Definition empty_world : world :=
  World ∅ ∅ ∅ [] 0 (FnDefaults [] [] []).

(** A few entries of the default table of [mimetypes]. *)
Definition types_map : list (string * string) :=
  [(".txt", "text/plain"); (".csv", "text/csv"); (".html", "text/html");
   (".png", "image/png"); (".jpg", "image/jpeg"); (".gif", "image/gif");
   (".mp3", "audio/mpeg"); (".wav", "audio/x-wav");
   (".pdf", "application/pdf"); (".zip", "application/zip")].

(** A guesser that knows these extensions and no encoding. *)
Definition guess_by_extension (table : list (string * string)) (name : string)
  : option string * option string :=
  (snd <$> find (fun entry => Py.endswith name (fst entry)) table, None).

(** A world holding a text file, a picture and a spreadsheet. *)
Definition attachments_world : world :=
  World (<["notes.txt" := "hi"]> (<["photo.png" := "PNG"]>
           (<["report.xlsx" := "PK"]> ∅)))
        ∅ ∅ [] 0 (FnDefaults [] [] []).

(** Credentials for the examples, and stand-ins for [pickle] and for
    Google's libraries: the token file holds the token string. *)
Definition fresh_credentials : credentials :=
  Credentials "fresh" (Some "r1") false.

Definition stale_credentials : credentials :=
  Credentials "stale" (Some "r1") true.

Definition demo_loads (data : string) : res pyobj :=
  if String.eqb data "fresh" then Ok (PyCredentials fresh_credentials)
  else if String.eqb data "stale" then Ok (PyCredentials stale_credentials)
  else Raise (Exn "UnpicklingError" ["PickleError"; "Exception"; "BaseException"]
                "invalid load key").

Definition demo_dumps (c : credentials) : string := token c.

Definition demo_refresh (c : credentials) : res credentials :=
  Ok (Credentials "fresh" (refresh_token c) false).

Definition demo_expanduser (path : string) : string :=
  if Py.startswith path "~/" then "/home/user" +:+ substring 1 (String.length path) path
  else path.

Definition token_world (data : string) : world :=
  World (<["/home/user/.gmail/gmail_token.pickle" := data]> ∅)
        ∅ ∅ [] 0 (FnDefaults [] [] []).

Definition demo_from_client_secrets (secrets : string) (scopes : list string)
  : res unit :=
  Ok tt.

Definition demo_run_local_server (flow : unit) : res credentials :=
  Ok fresh_credentials.

(** A table with an entry that is not of the form main/sub, as
    [mimetypes.add_type] or a system file can add. *)
Definition odd_types_map : list (string * string) :=
  (".dat", "binary") :: types_map.

(** A world with the client-secrets file and no token file. *)
Definition secrets_world : world :=
  World (<["/home/user/.gmail/gmail_credentials.json" := "{}"]> ∅)
        ∅ ∅ [] 0 (FnDefaults [] [] []).

(** A service whose send request is rejected. *)
Definition http_error : exn :=
  Exn "HttpError" ["Error"; "Exception"; "BaseException"] "HttpError 403".

Definition rejecting_service : gmail_service :=
  GmailService (fun _ _ => Raise http_error).

(** ** Decoding an attachment *)

(** [base64.b64decode] on the text [encodebytes] emits: the line feeds
    are left out, the rest is decoded in groups of four. *)
Fixpoint strip_newlines (s : string) : string :=
  match s with
  | EmptyString => EmptyString
  | String c t =>
      if Ascii.eqb c Py.LF then strip_newlines t else String c (strip_newlines t)
  end.

Definition b64decode (s : string) : option string :=
  Base64.decode_with Base64.standard_alphabet (strip_newlines s).

(** The payload of a part, when it is text. *)
Definition text_payload (m : message) : option string :=
  match m with
  | Part _ (Text s) => Some s
  | _ => None
  end.

(** The value of the last header of that name (compared as written). *)
Definition last_header (name : string) (m : message) : option string :=
  snd <$> last (List.filter (fun h => String.eqb (fst h) name) (msg_headers m)).

(** What [attachment.add_header("Content-Disposition", "attachment",
    filename=...)] sets. *)
Definition disposition (attachment_filename : string) : string :=
  "attachment; " +:+ Email.formatparam "filename" attachment_filename.

(** A file the composer can attach in [w]: its guessed type has the
    form main/sub with a main type other than "text", and it can be
    read. *)
Definition attachable (guess_type : string -> option string * option string)
    (w : world) (attachment_filename : string) : Prop :=
  exists (types : string * string) (data : string),
    unpack2 (Py.split "/" (guessed_content_type guess_type attachment_filename)) =
      Ok types /\
    String.eqb (fst types) "text" = false /\
    files w !! attachment_filename = Some data /\
    attachment_filename ∉ deny_read w.

(** ** The example script: send_test_email_with_gmail.py *)

Module Script.

(** The namespace [get_options] returns.  An option given with
    [action="append"] and [default=None] is [None] when the flag is
    absent and the list of its values otherwise. *)
Record options := Options {
  gmail_token_file : string;
  gmail_credentials_file : string;
  email_cc : option (list string);
  email_bcc : option (list string);
  email_attachements : option (list string);
  gmail_account : string;
  email_to : list string;
  email_subject : string;
  email_body : string
}.

(** The list a keyword argument stands for where the code only tests
    its truth value: [None] is as false as the empty list. *)
Definition or_empty (arg : option (list string)) : list string :=
  match arg with
  | Some l => l
  | None => []
  end.

Definition TypeError (msg : string) : exn :=
  Exn "TypeError" ["Exception"; "BaseException"] msg.

Section ScriptFunctions.

Variable expanduser : string -> string.
Variable pickle_loads : string -> res pyobj.
Variable pickle_dumps : credentials -> string.
Variable Flow : Type.
Variable from_client_secrets : string -> list string -> res Flow.
Variable run_local_server : Flow -> res credentials.
Variable refresh : credentials -> res credentials.
Variable build : string -> string -> credentials -> res gmail_service.
Variable guess_type : string -> option string * option string.
Variable as_string : nat -> message -> res string.

(** The namespace when only the required flags are given. *)
Definition required_only (account : string) (to : list string)
    (subject body : string) : options :=
  Options (expanduser "~/.gmail/gmail_token.pickle")
          (expanduser "~/.gmail/gmail_credentials.json")
          None None None account to subject body.

(** [build_msg_obj] called with [email_cc=], [email_bcc=] and
    [email_attachments=] given, each a list or [None].  For Cc and Bcc
    [None] is tested like the empty list.  With [None] for the
    attachments the body runs as with no attachment up to the [for]
    statement, which raises. *)
Definition build_msg_obj_keywords (email_from email_subject email_body : string)
    (email_to : list string) (email_cc email_bcc email_attachments : option (list string))
  : M (gmap string string) :=
  match email_attachments with
  | Some l =>
      build_msg_obj guess_type as_string email_from email_subject email_body
        email_to (Some (or_empty email_cc)) (Some (or_empty email_bcc)) (Some l)
  | None =>
      do build_container guess_type email_from email_subject email_body
           email_to (Some (or_empty email_cc)) (Some (or_empty email_bcc)) (Some [])
      then raise (TypeError "'NoneType' object is not iterable")
  end.

(** [main], after [opts = get_options()]. *)
Definition main (opts : options) : M unit :=
  do logging_info "Starting Send Email Process" then
  let* gmail_credentials :=
    get_gmail_credentials expanduser pickle_loads pickle_dumps Flow
      from_client_secrets run_local_server refresh
      (gmail_credentials_file opts) (gmail_token_file opts) in
  let* service := lift (get_gmail_service gmail_service build gmail_credentials) in
  let* email_msg :=
    build_msg_obj_keywords (gmail_account opts) (email_subject opts)
      (email_body opts) (email_to opts) (email_cc opts) (email_bcc opts)
      (email_attachements opts) in
  do send_email service email_msg then
  logging_info "Send Email Process Complete".

(** The process: the world, and what was printed. *)
Record process := Process {
  proc_world : world;
  stdout : list string
}.

(** [os.path.basename(__file__)] *)
Definition script_name : string := "send_test_email_with_gmail.py".

(** The block under [if __name__ == "__main__"]:
    [try: main()  except Exception as err: print(...); raise err]. *)
Definition run_script (opts : options) (p : process) : res unit * process :=
  match main opts (proc_world p) with
  | (Ok _, w') => (Ok tt, Process w' (stdout p))
  | (Raise err, w') =>
      if isinstance err "Exception" then
        (Raise err,
         Process w'
           (stdout p ++
            [script_name +:+ " failed due to error: " +:+ exn_message err]))
      else (Raise err, Process w' (stdout p))
  end.

End ScriptFunctions.

(** The status the interpreter exits with: 1 when an exception reaches
    the top of the script, 0 otherwise. *)
Definition exit_status (r : res unit) : nat :=
  match r with
  | Ok _ => 0
  | Raise _ => 1
  end.

End Script.

(** ** More instances for the examples *)

Definition is_send (e : event) : bool :=
  match e with
  | EvSend _ _ => true
  | _ => false
  end.

(** A service that accepts every message. *)
Definition accepting_service : gmail_service :=
  GmailService (fun _ _ => Ok {[ "id" := "m1" ]}).

Definition demo_build (name version : string) (c : credentials)
  : res gmail_service :=
  Ok accepting_service.

(** A world with the client-secrets file, a token file holding a fresh
    credential, and a picture. *)
Definition script_world : world :=
  World (<["/home/user/.gmail/gmail_credentials.json" := "{}"]>
           (<["/home/user/.gmail/gmail_token.pickle" := "fresh"]>
              (<["photo.png" := "PNG"]> ∅)))
        ∅ ∅ [] 0 (FnDefaults [] [] []).

(** A world whose token file may not be written. *)
Definition readonly_token_world : world :=
  World (<["/home/user/.gmail/gmail_credentials.json" := "{}"]>
           (<["/home/user/.gmail/gmail_token.pickle" := "stale"]> ∅))
        ∅ {[ "/home/user/.gmail/gmail_token.pickle" ]} [] 0 (FnDefaults [] [] []).

(** A credential that is expired and carries no refresh token. *)
Definition dead_credentials : credentials :=
  Credentials "dead" None true.

Definition demo_loads_dead (data : string) : res pyobj :=
  if String.eqb data "dead" then Ok (PyCredentials dead_credentials)
  else demo_loads data.

(** A world with the client-secrets file and a token file holding the
    credential without refresh token. *)
Definition dead_token_world : world :=
  World (<["/home/user/.gmail/gmail_credentials.json" := "{}"]>
           (<["/home/user/.gmail/gmail_token.pickle" := "dead"]> ∅))
        ∅ ∅ [] 0 (FnDefaults [] [] []).

(** A world holding a file of no known type. *)
Definition blob_world : world :=
  World (<["blob.bin" := "xyz"]> ∅) ∅ ∅ [] 0 (FnDefaults [] [] []).

(** The options of a run with the required flags only, and of a run
    with one attachment. *)
Definition required_options : Script.options :=
  Script.required_only demo_expanduser "me@x.com" ["a@x.com"] "Hi" "Hello".

Definition picture_options : Script.options :=
  Script.Options "~/.gmail/gmail_token.pickle" "~/.gmail/gmail_credentials.json"
    None None (Some ["photo.png"]) "me@x.com" ["a@x.com"] "Hi" "Hello".
(** * Properties *)

(** ** base64 round trip *)

Module Base64Facts.
Import Base64.

Lemma value_digit_urlsafe (n : nat) :
  n < 64 -> value urlsafe_alphabet (digit urlsafe_alphabet n) = Some n.
Proof.
  intros Hn.
  do 64 (destruct n as [|n]; [reflexivity|]).
  lia.
Qed.

Lemma digit_not_pad_urlsafe (n : nat) :
  n < 64 -> Ascii.eqb (digit urlsafe_alphabet n) pad = false.
Proof.
  intros Hn.
  do 64 (destruct n as [|n]; [reflexivity|]).
  lia.
Qed.

Lemma byte_lt_256 (a : ascii) : nat_of_ascii a < 256.
Proof. apply nat_ascii_bounded. Qed.

Lemma string_ind3 (P : string -> Prop) :
  P "" ->
  (forall a, P (String a "")) ->
  (forall a b, P (String a (String b ""))) ->
  (forall a b c t, P t -> P (String a (String b (String c t)))) ->
  forall s, P s.
Proof.
  intros H0 H1 H2 H3.
  fix IH 1.
  intros [|a [|b [|c t]]].
  - exact H0.
  - apply H1.
  - apply H2.
  - apply H3, IH.
Qed.

Ltac divmod := zify; Z.to_euclidean_division_equations; lia.

Lemma urlsafe_b64decode_b64encode (s : string) :
  urlsafe_b64decode (urlsafe_b64encode s) = Some s.
Proof.
  unfold urlsafe_b64decode, urlsafe_b64encode.
  induction s as [|a|a b|a b c t IH] using string_ind3.
  - reflexivity.
  - pose proof (byte_lt_256 a) as Ha.
    cbn [encode_with decode_with].
    rewrite !value_digit_urlsafe by divmod.
    rewrite Ascii.eqb_refl.
    replace (nat_of_ascii a / 4 * 4 + nat_of_ascii a mod 4 * 16 / 16)
      with (nat_of_ascii a) by divmod.
    now rewrite ascii_nat_embedding.
  - pose proof (byte_lt_256 a) as Ha. pose proof (byte_lt_256 b) as Hb.
    cbn [encode_with decode_with].
    rewrite !value_digit_urlsafe by divmod.
    rewrite Ascii.eqb_refl, digit_not_pad_urlsafe by divmod.
    set (x := nat_of_ascii a) in *. set (y := nat_of_ascii b) in *.
    replace (x / 4 * 4 + (x mod 4 * 16 + y / 16) / 16) with x by divmod.
    replace ((x mod 4 * 16 + y / 16) mod 16 * 16 + y mod 16 * 4 / 4)
      with y by divmod.
    subst x y. now rewrite !ascii_nat_embedding.
  - pose proof (byte_lt_256 a) as Ha. pose proof (byte_lt_256 b) as Hb.
    pose proof (byte_lt_256 c) as Hc.
    cbn [encode_with decode_with].
    rewrite !value_digit_urlsafe by divmod.
    rewrite digit_not_pad_urlsafe by divmod.
    rewrite IH.
    set (x := nat_of_ascii a) in *. set (y := nat_of_ascii b) in *.
    set (z := nat_of_ascii c) in *.
    replace (x / 4 * 4 + (x mod 4 * 16 + y / 16) / 16) with x by divmod.
    replace ((x mod 4 * 16 + y / 16) mod 16 * 16 + (y mod 16 * 4 + z / 64) / 4)
      with y by divmod.
    replace ((y mod 16 * 4 + z / 64) mod 4 * 64 + z mod 64) with z by divmod.
    subst x y z. now rewrite !ascii_nat_embedding.
Qed.

End Base64Facts.

(** ** Strings *)

Module PyFacts.
Import Py.

Lemma startswith_cons (c p : ascii) (s pre : string) :
  startswith (String c s) (String p pre) = Ascii.eqb p c && startswith s pre.
Proof. reflexivity. Qed.

Lemma contains_unfold (n s : string) :
  contains n s =
  startswith s n || match s with EmptyString => false | String _ t => contains n t end.
Proof. now destruct s. Qed.

Lemma startswith_app (p s : string) : startswith (p +:+ s) p = true.
Proof.
  induction p as [|c p IH]; [reflexivity|].
  change (String c p +:+ s) with (String c (p +:+ s)).
  now rewrite startswith_cons, Ascii.eqb_refl, IH.
Qed.

Lemma startswith_app_l (s t p : string) :
  startswith s p = true -> startswith (s +:+ t) p = true.
Proof.
  revert s. induction p as [|c p IH]; intros s H; [reflexivity|].
  destruct s as [|d s]; [discriminate|].
  change (String d s +:+ t) with (String d (s +:+ t)).
  rewrite startswith_cons in *.
  apply andb_true_iff in H as [-> H]. now apply IH.
Qed.

Lemma contains_here (p s : string) : contains p (p +:+ s) = true.
Proof. now rewrite contains_unfold, startswith_app. Qed.

Lemma contains_app_r (n s t : string) :
  contains n t = true -> contains n (s +:+ t) = true.
Proof.
  intros H. induction s as [|c s IH]; [exact H|].
  change (String c s +:+ t) with (String c (s +:+ t)).
  rewrite contains_unfold, IH. apply orb_true_r.
Qed.

Lemma contains_app_l (n s t : string) :
  contains n s = true -> contains n (s +:+ t) = true.
Proof.
  induction s as [|c s IH]; intros H.
  - rewrite contains_unfold, orb_false_r in H.
    destruct n; [|discriminate]. now rewrite contains_unfold.
  - rewrite contains_unfold in H. apply orb_true_iff in H as [H|H].
    + now rewrite contains_unfold, (startswith_app_l _ _ _ H).
    + change (String c s +:+ t) with (String c (s +:+ t)).
      rewrite contains_unfold, IH by exact H. apply orb_true_r.
Qed.

Lemma contains_middle (n s t : string) : contains n (s +:+ n +:+ t) = true.
Proof. apply contains_app_r, contains_here. Qed.

Lemma append_nil_r (a : string) : a +:+ "" = a.
Proof.
  induction a as [|x a IH]; [reflexivity|].
  change (String x a +:+ "") with (String x (a +:+ "")). now rewrite IH.
Qed.

Lemma append_assoc (a b c : string) : (a +:+ b) +:+ c = a +:+ (b +:+ c).
Proof.
  induction a as [|x a IH]; [reflexivity|].
  change ((String x a +:+ b) +:+ c) with (String x ((a +:+ b) +:+ c)).
  now rewrite IH.
Qed.

Lemma encode_app (a b : string) : encode (a +:+ b) = encode a +:+ encode b.
Proof.
  induction a as [|x a IH]; [reflexivity|].
  change (String x a +:+ b) with (String x (a +:+ b)).
  cbn [encode]. rewrite IH. now destruct (_ <? _)%nat.
Qed.

Lemma join_cons_or_nil (sep : string) (l : list string) :
  match l with [] => "" | _ :: _ => join sep l end = join sep l.
Proof. now destruct l. Qed.

Lemma startswith_encode (n s : string) :
  is_ascii n = true -> startswith s n = true -> startswith (encode s) n = true.
Proof.
  revert s. induction n as [|c n IH]; intros s Hn H; [reflexivity|].
  destruct s as [|d s]; [discriminate|].
  rewrite startswith_cons in H. apply andb_true_iff in H as [Hc H].
  apply Ascii.eqb_eq in Hc as <-.
  unfold is_ascii in Hn. cbn [list_ascii_of_string forallb] in Hn.
  apply andb_true_iff in Hn as [Hc Hn].
  cbn [encode]. rewrite Hc, startswith_cons, Ascii.eqb_refl.
  now apply IH.
Qed.

Lemma contains_encode (n s : string) :
  is_ascii n = true -> contains n s = true -> contains n (encode s) = true.
Proof.
  intros Hn. induction s as [|c s IH]; intros H.
  - exact H.
  - rewrite contains_unfold in H. apply orb_true_iff in H as [H|H].
    + now rewrite contains_unfold, startswith_encode.
    + specialize (IH H). cbn [encode].
      destruct (_ <? _)%nat.
      * rewrite contains_unfold, IH. apply orb_true_r.
      * rewrite contains_unfold. apply orb_true_iff. right.
        rewrite contains_unfold, IH. apply orb_true_r.
Qed.

End PyFacts.

(** ** The generator *)

Module GeneratorFacts.
Import Generator.

Lemma printable_app (a b : string) :
  printable (a +:+ b) = printable a && printable b.
Proof.
  induction a as [|c a IH]; [reflexivity|].
  change (String c a +:+ b) with (String c (a +:+ b)).
  unfold printable in *. cbn [list_ascii_of_string forallb].
  rewrite IH. now rewrite andb_assoc.
Qed.

Lemma write_headers_app (l1 l2 : list header) :
  write_headers (l1 ++ l2) =
  match write_headers l1, write_headers l2 with
  | Some a, Some b => Some (a +:+ b)
  | _, _ => None
  end.
Proof.
  induction l1 as [|h l1 IH]; cbn [write_headers app].
  - now destruct (write_headers l2).
  - rewrite IH. destruct (fold h); [|reflexivity].
    destruct (write_headers l1), (write_headers l2); try reflexivity.
    now rewrite PyFacts.append_assoc.
Qed.

Lemma printable_digits (d : Decimal.uint) :
  printable (NilEmpty.string_of_uint d) = true.
Proof. induction d; cbn [NilEmpty.string_of_uint]; try exact IHd; reflexivity. Qed.

Lemma printable_zeros (n : nat) : printable (zeros n) = true.
Proof. induction n as [|n IH]; [reflexivity|exact IH]. Qed.

Lemma printable_make_boundary (token : nat) : printable (make_boundary token) = true.
Proof.
  unfold make_boundary, zero_pad.
  now rewrite !printable_app, printable_zeros, printable_digits.
Qed.

End GeneratorFacts.

(** ** Running the monad *)

Lemma bind_ok {A B} (m : M A) (k : A -> M B) (w w' : world) (a : A) :
  m w = (Ok a, w') -> bind m k w = k a w'.
Proof. intros H. unfold bind. now rewrite H. Qed.

Lemma bind_raise {A B} (m : M A) (k : A -> M B) (w w' : world) (e : exn) :
  m w = (Raise e, w') -> bind m k w = (Raise e, w').
Proof. intros H. unfold bind. now rewrite H. Qed.

Lemma emit_run (e : event) (w : world) :
  emit e w = (Ok tt, with_events (events w ++ [e]) w).
Proof. reflexivity. Qed.

Lemma os_path_exists_run (path : string) (w : world) :
  os_path_exists path w =
    (Ok (bool_decide (is_Some (files w !! path))),
     with_events (events w ++ [EvExists path]) w).
Proof. reflexivity. Qed.

Lemma with_events_twice (l1 l2 : list event) (w : world) :
  with_events l2 (with_events l1 w) = with_events l2 w.
Proof. reflexivity. Qed.

Lemma new_events_app (w : world) (l : list event) :
  new_events w (with_events (events w ++ l) w) = l.
Proof. unfold new_events. simpl. apply drop_app_length. Qed.

Lemma open_rb_read_ok (path data : string) (w : world) :
  files w !! path = Some data ->
  path ∉ deny_read w ->
  open_rb_read path w = (Ok data, with_events (events w ++ [EvRead path]) w).
Proof.
  intros Hf Hr. unfold open_rb_read. rewrite Hf.
  rewrite bool_decide_eq_false_2 by assumption. reflexivity.
Qed.

Lemma open_wb_write_ok (path data : string) (w : world) :
  path ∉ deny_write w ->
  open_wb_write path data w =
    (Ok tt, with_events (events w ++ [EvWrite path data])
              (with_files (<[path := data]> (files w)) w)).
Proof.
  intros Hw. unfold open_wb_write.
  rewrite bool_decide_eq_false_2 by assumption. reflexivity.
Qed.

(** Case analysis on the innermost test of the goal, repeated. *)
Ltac split_run :=
  repeat match goal with
    | |- context [match ?x with _ => _ end] =>
        lazymatch x with
        | context [match _ with _ => _ end] => fail
        | _ => destruct x eqn:?
        end
    end.

(** ** Credential acquisition *)

Section CredentialsProperties.

Variable expanduser : string -> string.
Variable pickle_loads : string -> res pyobj.
Variable pickle_dumps : credentials -> string.
Variable Flow : Type.
Variable from_client_secrets : string -> list string -> res Flow.
Variable run_local_server : Flow -> res credentials.
Variable refresh : credentials -> res credentials.

Abbreviation acquire :=
  (get_gmail_credentials expanduser pickle_loads pickle_dumps Flow
     from_client_secrets run_local_server refresh).
Abbreviation generate :=
  (generate_gmail_token expanduser Flow from_client_secrets run_local_server).

Lemma pickle_load_ok (path data : string) (o : pyobj) (w : world) :
  files w !! path = Some data ->
  path ∉ deny_read w ->
  pickle_loads data = Ok o ->
  pickle_load pickle_loads path w =
    (Ok o, with_events (events w ++ [EvRead path]) w).
Proof.
  intros Hf Hr Hl. unfold pickle_load.
  erewrite bind_ok by (apply open_rb_read_ok; eassumption).
  unfold lift. now rewrite Hl.
Qed.

(** With a credential in the cache, acquisition is the chain of tests on
    [expired] and [refresh_token], run after the load. *)
Lemma acquire_cached (cf tf data : string) (c : credentials) (w : world) :
  files w !! expanduser tf = Some data ->
  expanduser tf ∉ deny_read w ->
  pickle_loads data = Ok (PyCredentials c) ->
  acquire cf tf w =
    (if expired c && truthy_str (refresh_token c) then
       let* c := credentials_refresh refresh c in
       do pickle_dump pickle_dumps c (expanduser tf) then ret c
     else if expired c && negb (truthy_str (refresh_token c)) then
       let* c := generate (expanduser cf) in
       do pickle_dump pickle_dumps c (expanduser tf) then ret c
     else ret c) (after_load (expanduser tf) w).
Proof.
  intros Hf Hr Hl.
  unfold get_gmail_credentials, logging_info.
  erewrite bind_ok by apply emit_run.
  erewrite bind_ok by apply os_path_exists_run.
  cbn [files with_events].
  rewrite bool_decide_eq_true_2 by (rewrite Hf; eauto).
  erewrite bind_ok by (eapply pickle_load_ok; cbn; eassumption).
  cbn [truthy negb]. unfold after_load. cbn [events with_events].
  rewrite <- !app_assoc. reflexivity.
Qed.

Lemma pickle_dump_ok (c : credentials) (path : string) (w : world) :
  path ∉ deny_write w ->
  pickle_dump pickle_dumps c path w =
    (Ok tt, with_events (events w ++ [EvWrite path (pickle_dumps c)])
              (with_files (<[path := pickle_dumps c]> (files w)) w)).
Proof. apply open_wb_write_ok. Qed.

Lemma credentials_refresh_run (c : credentials) (w : world) :
  credentials_refresh refresh c w =
    (refresh c, with_events (events w ++ [EvRefresh c]) w).
Proof. reflexivity. Qed.

(** C10: with a token file that exists and deserialises to a credential
    that is not expired, acquisition returns that credential and writes
    no file: the files are what they were, no write happened, and
    neither the interactive flow nor a refresh was invoked. *)
Theorem fresh_token_no_writes (cf tf data : string) (c : credentials) (w : world) :
  files w !! expanduser tf = Some data ->
  expanduser tf ∉ deny_read w ->
  pickle_loads data = Ok (PyCredentials c) ->
  expired c = false ->
  exists w',
    acquire cf tf w = (Ok c, w') /\
    files w' = files w /\
    Forall (fun e => is_write e = false) (new_events w w') /\
    transitions (new_events w w') = [].
Proof.
  intros Hf Hr Hl He.
  exists (after_load (expanduser tf) w).
  rewrite (acquire_cached _ _ _ _ _ Hf Hr Hl), He. cbn [andb].
  unfold after_load. rewrite new_events_app.
  repeat split. repeat constructor.
Qed.

(** C4: for a cached credential that is expired and has a refresh token,
    one invocation calls refresh once and never the interactive flow;
    when the refresh succeeds and the token file can be written, the
    refreshed credential is returned and is what the token file holds. *)
Theorem expired_refreshable_is_refreshed
    (cf tf data : string) (c : credentials) (w : world) :
  files w !! expanduser tf = Some data ->
  expanduser tf ∉ deny_read w ->
  pickle_loads data = Ok (PyCredentials c) ->
  expired c = true ->
  truthy_str (refresh_token c) = true ->
  transitions (new_events w (snd (acquire cf tf w))) = [RefreshToken] /\
  forall c',
    refresh c = Ok c' ->
    expanduser tf ∉ deny_write w ->
    exists w',
      acquire cf tf w = (Ok c', w') /\
      files w' = <[expanduser tf := pickle_dumps c']> (files w) /\
      new_events w w' =
        [EvLog "INFO" "Getting Gmail Credentials"; EvExists (expanduser tf);
         EvRead (expanduser tf); EvRefresh c;
         EvWrite (expanduser tf) (pickle_dumps c')].
Proof.
  intros Hf Hr Hl He Ht.
  rewrite (acquire_cached _ _ _ _ _ Hf Hr Hl), He, Ht. cbn [andb].
  split.
  - unfold bind at 1. rewrite credentials_refresh_run.
    unfold pickle_dump, open_wb_write, bind, ret, new_events, after_load.
    destruct (refresh c) as [c'|e]; cbn [snd events with_events deny_write];
      [destruct (bool_decide _)|]; cbn [snd events with_events with_files];
      rewrite <- ?app_assoc, drop_app_length; reflexivity.
  - intros c' Hc Hw.
    erewrite bind_ok by (rewrite credentials_refresh_run, Hc; reflexivity).
    erewrite bind_ok by (apply pickle_dump_ok; exact Hw).
    eexists. split; [reflexivity|]. split; [reflexivity|].
    unfold new_events, after_load. cbn [events with_events with_files].
    rewrite <- !app_assoc, drop_app_length. reflexivity.
Qed.

Abbreviation machine :=
  (spec_acquire expanduser pickle_loads pickle_dumps Flow
     from_client_secrets run_local_server refresh).
Abbreviation step :=
  (spec_step expanduser pickle_dumps Flow
     from_client_secrets run_local_server refresh).

Lemma generate_run (cf secrets : string) (flow : Flow) (c : credentials) (w : world) :
  files w !! expanduser cf = Some secrets ->
  expanduser cf ∉ deny_read w ->
  from_client_secrets secrets ["https://mail.google.com/"] = Ok flow ->
  run_local_server flow = Ok c ->
  generate cf w =
    (Ok c,
     with_events
       (events w ++ [EvRead (expanduser cf); EvInteractiveFlow secrets]) w).
Proof.
  intros Hf Hr Hs Hl. unfold generate_gmail_token.
  erewrite bind_ok by (apply open_rb_read_ok; eassumption).
  unfold lift, emit, bind, ret. rewrite Hs, Hl. cbn [events with_events].
  now rewrite <- app_assoc.
Qed.

(** The code and the machine written from the specification run alike
    on every world. *)
Lemma acquire_is_machine (cf tf : string) (w : world) :
  acquire cf tf w = machine cf tf w.
Proof.
  unfold get_gmail_credentials, spec_acquire, spec_load, logging_info,
    os_path_exists, emit, bind, ret.
  cbn [files with_events].
  destruct (bool_decide _).
  - destruct (pickle_load _ _ _) as [[o|e] w1]; [|reflexivity].
    destruct o as [|c]; [reflexivity|].
    cbn [truthy negb state_of].
    destruct (expired c), (truthy_str (refresh_token c)); reflexivity.
  - reflexivity.
Qed.

(** From a world whose cache is in state [s], acquisition is the step of
    [s], run once the cache has been looked at. *)
Lemma acquire_by_state (cf tf : string) (w : world) (s : cred_state) :
  cache_state pickle_loads w (expanduser tf) = Some s ->
  acquire cf tf w =
    step (expanduser cf) (expanduser tf) s
      (with_events (events w ++ load_events w (expanduser tf)) w).
Proof.
  rewrite acquire_is_machine.
  unfold cache_state, spec_acquire, spec_load, logging_info, os_path_exists,
    pickle_load, open_rb_read, emit, lift, bind, ret, load_events.
  cbn [files with_events deny_read events].
  destruct (files w !! expanduser tf) as [data|] eqn:Hf.
  - rewrite (bool_decide_eq_true_2 (is_Some (Some data))) by eauto.
    cbv beta iota. cbn [files with_events deny_read events]. rewrite Hf.
    destruct (bool_decide (expanduser tf ∈ deny_read w)); [discriminate|].
    destruct (pickle_loads data) as [o|e]; [|discriminate].
    intros [= <-]. cbn [events with_events].
    rewrite <- !app_assoc. reflexivity.
  - rewrite (bool_decide_eq_false_2 (is_Some None))
      by (intros [x Hx]; discriminate).
    intros [= <-]. cbn [events with_events].
    rewrite <- !app_assoc, app_nil_r. reflexivity.
Qed.

(** From a world whose token file cannot be read or does not unpickle,
    acquisition stops with the error of the load. *)
Lemma acquire_no_state (cf tf : string) (w : world) :
  cache_state pickle_loads w (expanduser tf) = None ->
  exists e evs,
    acquire cf tf w = (Raise e, with_events (events w ++ evs) w) /\
    transitions evs = [].
Proof.
  rewrite acquire_is_machine.
  unfold cache_state, spec_acquire, spec_load, logging_info, os_path_exists,
    pickle_load, open_rb_read, emit, lift, bind, ret.
  cbn [files with_events deny_read events].
  destruct (files w !! expanduser tf) as [data|] eqn:Hf; [|discriminate].
  rewrite (bool_decide_eq_true_2 (is_Some (Some data))) by eauto.
  cbv beta iota. cbn [files with_events deny_read events]. rewrite Hf.
  destruct (bool_decide (expanduser tf ∈ deny_read w)).
  - intros _. eexists _, _. rewrite <- !app_assoc. split; reflexivity.
  - destruct (pickle_loads data) as [o|e]; [discriminate|].
    intros _. eexists _, _. cbn [events with_events].
    rewrite <- !app_assoc. split; reflexivity.
Qed.

Lemma transitions_load_events (w : world) (tf : string) :
  transitions (load_events w tf) = [].
Proof. unfold load_events. now destruct (files w !! tf). Qed.

(** A step performs the transition of its state once, or stops with an
    error before any. *)
Lemma step_transitions (cf tf : string) (s : cred_state) (w1 : world) :
  exists evs,
    events (snd (step cf tf s w1)) = events w1 ++ evs /\
    (transitions evs = expected_transitions (spec_transition s) \/
     ((exists e, fst (step cf tf s w1) = Raise e) /\ transitions evs = [])).
Proof.
  destruct s as [|c|c|c]; cbn [spec_step spec_transition expected_transitions].
  - unfold interactive_auth, generate_gmail_token, pickle_dump, open_rb_read,
      open_wb_write, lift, emit, bind, ret.
    split_run; cbn [fst snd events with_events with_files];
      rewrite <- ?app_assoc;
      first [ eexists; split; [reflexivity|]; cbn; now eauto
            | exists []; rewrite app_nil_r; split; [reflexivity|]; cbn; now eauto ].
  - exists []. rewrite app_nil_r. split; [reflexivity|]. now left.
  - unfold refresh_and_persist, credentials_refresh, pickle_dump,
      open_wb_write, lift, emit, bind, ret.
    split_run; cbn [fst snd events with_events with_files];
      rewrite <- ?app_assoc; eexists; (split; [reflexivity|]); now left.
  - unfold interactive_auth, generate_gmail_token, pickle_dump, open_rb_read,
      open_wb_write, lift, emit, bind, ret.
    split_run; cbn [fst snd events with_events with_files];
      rewrite <- ?app_assoc;
      first [ eexists; split; [reflexivity|]; cbn; now eauto
            | exists []; rewrite app_nil_r; split; [reflexivity|]; cbn; now eauto ].
Qed.

(** The interactive flow and the dump, when every call succeeds. *)
Lemma interactive_auth_run (cf tf secrets : string) (flow : Flow)
    (c : credentials) (w : world) :
  files w !! expanduser cf = Some secrets ->
  expanduser cf ∉ deny_read w ->
  from_client_secrets secrets ["https://mail.google.com/"] = Ok flow ->
  run_local_server flow = Ok c ->
  tf ∉ deny_write w ->
  interactive_auth expanduser pickle_dumps Flow from_client_secrets
    run_local_server cf tf w =
    (Ok c,
     with_events
       (events w ++ [EvRead (expanduser cf); EvInteractiveFlow secrets;
                     EvWrite tf (pickle_dumps c)])
       (with_files (<[tf := pickle_dumps c]> (files w)) w)).
Proof.
  intros Hf Hr Hp Hl Hw. unfold interactive_auth.
  erewrite bind_ok by (eapply generate_run; eassumption).
  erewrite bind_ok by (apply pickle_dump_ok; exact Hw).
  unfold ret. cbn [events with_events with_files].
  rewrite <- !app_assoc. reflexivity.
Qed.

(** C1: credential acquisition follows the four-transition state
    machine, the state being the one the token file is in when
    [get_gmail_credentials] is called ([cache_state]: absent when there
    is no token file or it holds [None]; otherwise the state of the
    credential it unpickles to).  From the absent state and from the
    expired, non-refreshable state, with a readable secrets file and a
    flow that succeeds, the interactive flow runs once and its result is
    returned and written to the token file.  From the valid, not expired
    state the cached credential is returned and nothing else happens.
    From the expired, refreshable state, with a refresh that succeeds,
    the credential is refreshed once, returned and written to the token
    file.  For every world, no other transition occurs: the run performs
    the transition of its state once, or stops with an error before any
    transition; when the token file cannot be loaded it stops with an
    error, no transition and no file changed.  Last, the code runs on
    every world as the machine written from the specification does. *)
Theorem acquisition_is_state_machine (cf tf : string) (w : world) :
  let tf' := expanduser tf in
  let cf' := expanduser (expanduser cf) in
  let run := acquire cf tf w in
  (forall (s : cred_state) (secrets : string) (flow : Flow) (c' : credentials),
     cache_state pickle_loads w tf' = Some s ->
     spec_transition s = InteractiveAuth ->
     files w !! cf' = Some secrets ->
     cf' ∉ deny_read w ->
     from_client_secrets secrets ["https://mail.google.com/"] = Ok flow ->
     run_local_server flow = Ok c' ->
     tf' ∉ deny_write w ->
     exists w',
       run = (Ok c', w') /\
       files w' = <[tf' := pickle_dumps c']> (files w) /\
       new_events w w' =
         load_events w tf' ++
         [EvRead cf'; EvInteractiveFlow secrets; EvWrite tf' (pickle_dumps c')]) /\
  (forall c : credentials,
     cache_state pickle_loads w tf' = Some (ValidNotExpired c) ->
     run = (Ok c, with_events (events w ++ load_events w tf') w) /\
     transitions (load_events w tf') = [] /\
     Forall (fun e => is_write e = false) (load_events w tf')) /\
  (forall c c' : credentials,
     cache_state pickle_loads w tf' = Some (ExpiredRefreshable c) ->
     refresh c = Ok c' ->
     tf' ∉ deny_write w ->
     exists w',
       run = (Ok c', w') /\
       files w' = <[tf' := pickle_dumps c']> (files w) /\
       new_events w w' =
         load_events w tf' ++ [EvRefresh c; EvWrite tf' (pickle_dumps c')]) /\
  match cache_state pickle_loads w tf' with
  | Some s =>
      transitions (new_events w (snd run)) =
        expected_transitions (spec_transition s) \/
      ((exists e, fst run = Raise e) /\ transitions (new_events w (snd run)) = [])
  | None =>
      (exists e, fst run = Raise e) /\
      transitions (new_events w (snd run)) = [] /\
      files (snd run) = files w
  end /\
  run = machine cf tf w.
Proof.
  cbv zeta.
  split; [|split; [|split; [|split]]].
  - (* absent, or expired without refresh token *)
    intros s secrets flow c' Hs Ht Hf Hr Hp Hl Hw.
    rewrite (acquire_by_state _ _ _ _ Hs).
    assert (step (expanduser cf) (expanduser tf) s =
            interactive_auth expanduser pickle_dumps Flow from_client_secrets
              run_local_server (expanduser cf) (expanduser tf)) as ->
      by (destruct s; try discriminate; reflexivity).
    erewrite interactive_auth_run by eassumption.
    eexists. split; [reflexivity|]. split; [reflexivity|].
    unfold new_events. cbn [events with_events with_files].
    rewrite <- !app_assoc. apply drop_app_length.
  - (* valid, not expired *)
    intros c Hs. rewrite (acquire_by_state _ _ _ _ Hs).
    split; [reflexivity|]. split; [apply transitions_load_events|].
    unfold load_events. destruct (files w !! expanduser tf); repeat constructor.
  - (* expired, refreshable *)
    intros c c' Hs Hc Hw. rewrite (acquire_by_state _ _ _ _ Hs).
    cbn [spec_step]. unfold refresh_and_persist.
    erewrite bind_ok by (rewrite credentials_refresh_run, Hc; reflexivity).
    erewrite bind_ok by (apply pickle_dump_ok; exact Hw).
    eexists. split; [reflexivity|]. split; [reflexivity|].
    unfold new_events. cbn [events with_events with_files].
    rewrite <- !app_assoc. apply drop_app_length.
  - (* no other transition *)
    destruct (cache_state pickle_loads w (expanduser tf)) as [s|] eqn:Hs.
    + rewrite (acquire_by_state _ _ _ _ Hs).
      destruct (step_transitions (expanduser cf) (expanduser tf) s
                  (with_events (events w ++ load_events w (expanduser tf)) w))
        as (evs & Hev & Ht).
      unfold new_events. rewrite Hev. cbn [events with_events].
      rewrite <- app_assoc, drop_app_length.
      unfold transitions in *. rewrite omap_app.
      fold (transitions (load_events w (expanduser tf))).
      rewrite transitions_load_events. exact Ht.
    + destruct (acquire_no_state cf tf w Hs) as (e & evs & -> & Ht).
      cbn [fst snd]. split; [eauto|]. split; [|reflexivity].
      now rewrite new_events_app.
  - apply acquire_is_machine.
Qed.

End CredentialsProperties.

(** ** Sending *)

(** C7: when the send request raises an error (an instance of
    [Exception]), [send_email] makes the request once, logs the failure
    with the text of the error, and raises that same error. *)
Theorem send_failure_logged_and_reraised
    (service : gmail_service) (email_msg : gmap string string) (w : world) (e : exn) :
  send_execute service "me" email_msg = Raise e ->
  isinstance e "Exception" = true ->
  send_email service email_msg w =
    (Raise e,
     with_events
       (events w ++
        [EvLog "INFO" "Sending Email through Gmail";
         EvSend "me" email_msg;
         EvLog "ERROR"
           ("Error: unable to send email through gmail: " +:+ exn_message e)]) w).
Proof.
  intros Hs He.
  unfold send_email, logging_info, logging_exception, try_except_Exception,
    emit, lift, raise, bind.
  rewrite Hs, He. cbn [events with_events].
  rewrite <- !app_assoc. reflexivity.
Qed.

(** What is not an [Exception] passes through, unlogged. *)
Lemma send_interrupt_propagates
    (service : gmail_service) (email_msg : gmap string string) (w : world) (e : exn) :
  send_execute service "me" email_msg = Raise e ->
  isinstance e "Exception" = false ->
  fst (send_email service email_msg w) = Raise e.
Proof.
  intros Hs He.
  unfold send_email, logging_info, try_except_Exception, emit, lift, bind.
  now rewrite Hs, He.
Qed.

(** ** Message composition *)

Lemma only_events_refl (w : world) : only_events w w.
Proof. now destruct w. Qed.

Lemma only_events_trans (w1 w2 w3 : world) :
  only_events w1 w2 -> only_events w2 w3 -> only_events w1 w3.
Proof. unfold only_events. intros H1 H2. rewrite H2, H1. reflexivity. Qed.

Lemma only_events_with_events (w : world) (l : list event) :
  only_events w (with_events l w).
Proof. reflexivity. Qed.

Lemma only_events_unreadable (w w' : world) (path : string) :
  only_events w w' -> unreadable w path -> unreadable w' path.
Proof. unfold only_events, unreadable. intros ->. exact id. Qed.

Lemma for_each_cons {A B} (x : A) (t : list A) (body : A -> B -> M B)
    (acc : B) (w : world) :
  for_each (x :: t) body acc w =
  match body x acc w with
  | (Ok a, w') => for_each t body a w'
  | (Raise e, w') => (Raise e, w')
  end.
Proof. reflexivity. Qed.

Lemma for_each_app {A B} (l1 l2 : list A) (body : A -> B -> M B) (acc : B) (w : world) :
  for_each (l1 ++ l2) body acc w =
  (let* acc' := for_each l1 body acc in for_each l2 body acc') w.
Proof.
  revert acc w. induction l1 as [|x l1 IH]; intros acc w.
  - reflexivity.
  - cbn [for_each app]. unfold bind at 1 2 3.
    destruct (body x acc w) as [[a|e] w1]; [|reflexivity].
    rewrite IH. reflexivity.
Qed.

Lemma MIMEText_str_ok (s subtype : string) :
  exists h p, Email.MIMEText (PyStr s) subtype = Ok (Part h p).
Proof.
  unfold Email.MIMEText. destruct (Py.is_ascii s); eexists _, _; reflexivity.
Qed.

Lemma open_rb_read_only_events (path : string) (w : world) :
  only_events w (snd (open_rb_read path w)).
Proof.
  unfold open_rb_read.
  destruct (files w !! path); [destruct (bool_decide _)|];
    cbn [snd]; auto using only_events_refl, only_events_with_events.
Qed.

Lemma open_rb_read_unreadable (path : string) (w : world) :
  unreadable w path -> open_rb_read path w = (Raise (io_error_of w path), w).
Proof.
  unfold unreadable, open_rb_read, io_error_of. intros [H|H].
  - now rewrite H.
  - destruct (files w !! path); [|reflexivity].
    now rewrite bool_decide_eq_true_2.
Qed.

Lemma io_error_is_OSError (w : world) (path : string) :
  isinstance (io_error_of w path) "OSError" = true.
Proof. unfold io_error_of. now destruct (files w !! path). Qed.

Lemma same_inputs_refl (w : world) : same_inputs w w.
Proof. now unfold same_inputs. Qed.

Lemma only_events_same_inputs (w w' : world) :
  only_events w w' -> same_inputs w w'.
Proof. unfold only_events, same_inputs. now intros ->. Qed.

Lemma same_inputs_trans (w1 w2 w3 : world) :
  same_inputs w1 w2 -> same_inputs w2 w3 -> same_inputs w1 w3.
Proof.
  unfold same_inputs. intros (?&?&?) (?&?&?). repeat split; congruence.
Qed.

Lemma same_inputs_sym (w1 w2 : world) : same_inputs w1 w2 -> same_inputs w2 w1.
Proof. unfold same_inputs. intros (?&?&?). repeat split; congruence. Qed.

Lemma open_rb_read_same_inputs (path : string) (w w' : world) :
  same_inputs w w' -> fst (open_rb_read path w) = fst (open_rb_read path w').
Proof.
  intros (Hf&Hr&_). unfold open_rb_read. rewrite Hf, Hr.
  destruct (files w' !! path); [destruct (bool_decide _)|]; reflexivity.
Qed.

Section ComposerProperties.

Variable guess_type : string -> option string * option string.
Variable as_string : nat -> message -> res string.

Abbreviation encode_att := (encode_attachment_for_email guess_type).
Abbreviation container := (build_container guess_type).
Abbreviation compose := (build_msg_obj guess_type as_string).

(** The body of the loop over the attachments. *)
Abbreviation attach_file :=
  (fun (attachment_filename : string) (email_msg : message) =>
     let* attachment := encode_attachment_for_email guess_type attachment_filename in
     let attachment :=
       Email.add_header "Content-Disposition" "attachment"
         [("filename", attachment_filename)] attachment in
     lift (Email.attach attachment email_msg)).

Lemma encode_att_run (fn : string) (w : world) :
  encode_att fn w =
  match unpack2 (Py.split "/" (guessed_content_type guess_type fn)) with
  | Raise e => (Raise e, w)
  | Ok types =>
      match open_rb_read fn w with
      | (Ok data, w') => (encoded (fst types) (snd types) data, w')
      | (Raise e, w') => (Raise e, w')
      end
  end.
Proof.
  unfold encode_attachment_for_email, encoded, bind, lift, ret.
  destruct (unpack2 _) as [types|e]; [|reflexivity].
  destruct (open_rb_read fn w) as [[data|e] w']; [|reflexivity].
  split_run; reflexivity.
Qed.

Lemma encode_att_only_events (fn : string) (w : world) :
  only_events w (snd (encode_att fn w)).
Proof.
  rewrite encode_att_run.
  destruct (unpack2 _); [|apply only_events_refl].
  pose proof (open_rb_read_only_events fn w) as H.
  destruct (open_rb_read fn w) as [[data|e] w']; exact H.
Qed.

Lemma encode_att_same_inputs (fn : string) (w w' : world) :
  same_inputs w w' -> fst (encode_att fn w) = fst (encode_att fn w').
Proof.
  intros H. rewrite !encode_att_run.
  destruct (unpack2 _); [|reflexivity].
  pose proof (open_rb_read_same_inputs fn w w' H) as E.
  destruct (open_rb_read fn w) as [[d|e] w1], (open_rb_read fn w') as [[d'|e'] w1'];
    cbn [fst] in *; try discriminate; congruence.
Qed.

Lemma attach_file_only_events (fn : string) (acc : message) (w : world) :
  only_events w (snd (attach_file fn acc w)).
Proof.
  unfold bind, lift.
  pose proof (encode_att_only_events fn w) as H.
  destruct (encode_att fn w) as [[a|e] w']; exact H.
Qed.

Lemma attach_file_same_inputs (fn : string) (acc : message) (w w' : world) :
  same_inputs w w' -> fst (attach_file fn acc w) = fst (attach_file fn acc w').
Proof.
  intros H. unfold bind, lift.
  pose proof (encode_att_same_inputs fn w w' H) as E.
  destruct (encode_att fn w) as [[a|e] w1], (encode_att fn w') as [[a'|e'] w1'];
    cbn [fst] in *; try discriminate; congruence.
Qed.

Lemma loop_only_events (atts : list string) (acc : message) (w : world) :
  only_events w (snd (for_each atts attach_file acc w)).
Proof.
  revert acc w. induction atts as [|fn atts IH]; intros acc w.
  - apply only_events_refl.
  - rewrite for_each_cons.
    pose proof (attach_file_only_events fn acc w) as H.
    destruct (attach_file fn acc w) as [[a|e] w']; [|exact H].
    eapply only_events_trans; [exact H|apply IH].
Qed.

Lemma loop_same_inputs (atts : list string) (acc : message) (w w' : world) :
  same_inputs w w' ->
  fst (for_each atts attach_file acc w) = fst (for_each atts attach_file acc w').
Proof.
  revert acc w w'. induction atts as [|fn atts IH]; intros acc w w' H.
  - reflexivity.
  - rewrite !for_each_cons.
    pose proof (attach_file_same_inputs fn acc w w' H) as E.
    pose proof (attach_file_only_events fn acc w) as H1.
    pose proof (attach_file_only_events fn acc w') as H2.
    destruct (attach_file fn acc w) as [[a|e] w1],
             (attach_file fn acc w') as [[a'|e'] w1'];
      cbn [fst] in *; try discriminate; [|exact E].
    injection E as <-. apply IH.
    eapply same_inputs_trans;
      [apply same_inputs_sym, only_events_same_inputs, H1|].
    eapply same_inputs_trans; [exact H|].
    apply only_events_same_inputs, H2.
Qed.

Lemma loop_keeps_headers (atts : list string) (h : list header)
    (ps : list message) (w w' : world) (m : message) :
  for_each atts attach_file (Multipart h ps) w = (Ok m, w') ->
  exists ps', m = Multipart h (ps ++ ps').
Proof.
  revert ps w. induction atts as [|fn atts IH]; intros ps w H.
  - injection H as <- _. exists []. now rewrite app_nil_r.
  - rewrite for_each_cons in H. unfold bind, lift in H.
    destruct (encode_att fn w) as [[a|e] w1]; [|discriminate].
    cbn [Email.attach] in H. apply IH in H as [ps' ->].
    eexists. now rewrite <- app_assoc.
Qed.

Lemma container_run (email_from email_subject email_body : string)
    (email_to : list string) (cc bcc atts : option (list string)) (w : world) :
  exists part,
    Email.MIMEText (PyStr email_body) "plain" = Ok part /\
    container email_from email_subject email_body email_to cc bcc atts w =
    for_each (resolve default_email_attachments w atts) attach_file
      (Multipart
         (container_headers email_from email_subject email_to
            (resolve default_email_cc w cc) (resolve default_email_bcc w bcc))
         [part])
      (with_events (events w ++ [EvLog "INFO" "Building Email"]) w).
Proof.
  destruct (MIMEText_str_ok email_body "plain") as (h & p & E).
  exists (Part h p). split; [exact E|].
  unfold build_container. rewrite E.
  destruct cc, bcc, atts; cbn [arg_or_default resolve];
    unfold bind, ret, logging_info, emit, lift;
    cbn [defaults with_events Email.attach];
    rewrite !PyFacts.join_cons_or_nil; reflexivity.
Qed.

Lemma container_only_events (email_from email_subject email_body : string)
    (email_to : list string) (cc bcc atts : option (list string)) (w : world) :
  only_events w
    (snd (container email_from email_subject email_body email_to cc bcc atts w)).
Proof.
  destruct (container_run email_from email_subject email_body email_to
              cc bcc atts w) as (part & _ & ->).
  eapply only_events_trans; [|apply loop_only_events].
  apply only_events_with_events.
Qed.

Lemma container_headers_of (email_from email_subject email_body : string)
    (email_to : list string) (cc bcc atts : option (list string))
    (w w' : world) (m : message) :
  container email_from email_subject email_body email_to cc bcc atts w = (Ok m, w') ->
  exists parts,
    m = Multipart
          (container_headers email_from email_subject email_to
             (resolve default_email_cc w cc) (resolve default_email_bcc w bcc))
          parts.
Proof.
  destruct (container_run email_from email_subject email_body email_to
              cc bcc atts w) as (part & _ & ->).
  intros H. apply loop_keeps_headers in H as [ps ->]. eauto.
Qed.

(** Without attachments the container is always built. *)
Lemma container_without_attachments
    (email_from email_subject email_body : string)
    (email_to : list string) (cc bcc atts : option (list string)) (w : world) :
  resolve default_email_attachments w atts = [] ->
  exists part,
    Email.MIMEText (PyStr email_body) "plain" = Ok part /\
    container email_from email_subject email_body email_to cc bcc atts w =
      (Ok (Multipart
             (container_headers email_from email_subject email_to
                (resolve default_email_cc w cc) (resolve default_email_bcc w bcc))
             [part]),
       with_events (events w ++ [EvLog "INFO" "Building Email"]) w).
Proof.
  intros Ha.
  destruct (container_run email_from email_subject email_body email_to
              cc bcc atts w) as (part & Hp & ->).
  exists part. split; [exact Hp|]. rewrite Ha. reflexivity.
Qed.


(** The message of the end-to-end scenario, and its text. *)
Lemma scenario_container (w : world) :
  container "a@x.com" "Test" "Hello" ["b@x.com"] (Some []) (Some []) (Some []) w =
  (Ok scenario_message, with_events (events w ++ [EvLog "INFO" "Building Email"]) w).
Proof. reflexivity. Qed.

Lemma scenario_flatten (boundary : string) :
  Generator.printable boundary = true ->
  Generator.flatten boundary scenario_message = Some (scenario_text boundary).
Proof.
  intros Hb. unfold scenario_message, scenario_text, Generator.flatten.
  change (Generator.flatten_parts _) with (Some [scenario_body_text]).
  change (Generator.set_boundary boundary _)
    with ([("Content-Type", "multipart/mixed; boundary=" +:+ Py.dquoted boundary)] ++
          [("MIME-Version", "1.0"); ("subject", "Test"); ("from", "a@x.com");
           ("to", "b@x.com"); ("cc", ""); ("bcc", "")]).
  rewrite GeneratorFacts.write_headers_app.
  change (Generator.write_headers [("MIME-Version", "1.0"); _; _; _; _; _])
    with (Some scenario_headers_text).
  cbn [Generator.write_headers]. unfold Generator.fold. cbn [fst snd].
  unfold Py.dquoted.
  change (String Py.DQUOTE (boundary +:+ String Py.DQUOTE ""))
    with (String Py.DQUOTE "" +:+ boundary +:+ String Py.DQUOTE "").
  rewrite !GeneratorFacts.printable_app, Hb.
  match goal with |- context [if ?c then _ else _] => change c with true end.
  cbv iota. rewrite PyFacts.append_nil_r.
  reflexivity.
Qed.

Lemma scenario_text_contains (boundary : string) :
  Py.contains "subject: Test" (scenario_text boundary) = true /\
  Py.contains "Hello" (scenario_text boundary) = true.
Proof.
  unfold scenario_text. split.
  - apply PyFacts.contains_app_l, PyFacts.contains_app_r. reflexivity.
  - do 4 apply PyFacts.contains_app_r. apply PyFacts.contains_app_l. reflexivity.
Qed.

Lemma compose_run (email_from email_subject email_body : string)
    (email_to : list string) (cc bcc atts : option (list string))
    (w w1 : world) (m : message) :
  container email_from email_subject email_body email_to cc bcc atts w = (Ok m, w1) ->
  compose email_from email_subject email_body email_to cc bcc atts w =
  match as_string (random_state w1) m with
  | Ok text =>
      (Ok {[ "raw" := Base64.urlsafe_b64encode (Py.encode text) ]},
       with_random_state (S (random_state w1)) w1)
  | Raise e => (Raise e, with_random_state (S (random_state w1)) w1)
  end.
Proof.
  intros H. unfold build_msg_obj.
  erewrite bind_ok by exact H.
  unfold bind, msg_as_string, ret.
  now destruct (as_string _ _).
Qed.

Lemma scenario_compose (beyond : nat -> message -> res string) (w : world) :
  build_msg_obj guess_type (Generator.as_string beyond)
    "a@x.com" "Test" "Hello" ["b@x.com"] (Some []) (Some []) (Some []) w =
  (Ok {[ "raw" :=
           Base64.urlsafe_b64encode
             (Py.encode (scenario_text (Generator.make_boundary (random_state w)))) ]},
   with_random_state (S (random_state w))
     (with_events (events w ++ [EvLog "INFO" "Building Email"]) w)).
Proof.
  unfold build_msg_obj. erewrite bind_ok by apply scenario_container.
  unfold bind, msg_as_string, ret, Generator.as_string.
  cbn [random_state with_events].
  rewrite scenario_flatten by apply GeneratorFacts.printable_make_boundary.
  reflexivity.
Qed.

(** The body part [MIMEText(email_body, "plain")] is plain, whatever
    the body. *)
Lemma body_part_flattens (email_body : string) :
  exists part text,
    Email.MIMEText (PyStr email_body) "plain" = Ok part /\
    Generator.flatten_part part = Some text.
Proof.
  unfold Email.MIMEText.
  destruct (Py.is_ascii email_body); eexists _, _; (split; [reflexivity|]);
    reflexivity.
Qed.

(** The header block of the container is written when the values set by
    the caller are printable. *)
Lemma container_headers_written (email_from email_subject : string)
    (email_to email_cc email_bcc : list string) (boundary : string) :
  Generator.printable email_from = true ->
  Generator.printable email_subject = true ->
  Generator.printable (Py.join ", " email_to) = true ->
  Generator.printable (Py.join ", " email_cc) = true ->
  Generator.printable (Py.join ", " email_bcc) = true ->
  Generator.printable boundary = true ->
  exists h,
    Generator.write_headers
      (Generator.set_boundary boundary
         (container_headers email_from email_subject email_to email_cc email_bcc)) =
    Some h.
Proof.
  intros Hf Hs Ht Hc Hb Hy.
  change (Generator.set_boundary boundary
            (container_headers email_from email_subject email_to email_cc email_bcc))
    with [("Content-Type", "multipart/mixed; boundary=" +:+ Py.dquoted boundary);
          ("MIME-Version", "1.0"); ("subject", email_subject);
          ("from", email_from); ("to", Py.join ", " email_to);
          ("cc", Py.join ", " email_cc); ("bcc", Py.join ", " email_bcc)].
  cbn [Generator.write_headers]. unfold Generator.fold. cbn [fst snd].
  unfold Py.dquoted.
  change (String Py.DQUOTE (boundary +:+ String Py.DQUOTE ""))
    with (String Py.DQUOTE "" +:+ boundary +:+ String Py.DQUOTE "").
  rewrite !GeneratorFacts.printable_app, Hf, Hs, Ht, Hc, Hb, Hy.
  eexists. reflexivity.
Qed.

(** A container without attachments whose header values are printable
    is plain: the generator writes it. *)
Lemma plain_container_flattens (email_from email_subject email_body : string)
    (email_to email_cc email_bcc : list string) (boundary : string) (part : message) :
  Generator.printable email_from = true ->
  Generator.printable email_subject = true ->
  Generator.printable (Py.join ", " email_to) = true ->
  Generator.printable (Py.join ", " email_cc) = true ->
  Generator.printable (Py.join ", " email_bcc) = true ->
  Generator.printable boundary = true ->
  Email.MIMEText (PyStr email_body) "plain" = Ok part ->
  exists text,
    Generator.flatten boundary
      (Multipart
         (container_headers email_from email_subject email_to email_cc email_bcc)
         [part]) = Some text.
Proof.
  intros Hf Hs Ht Hc Hb Hy Hp.
  destruct (body_part_flattens email_body) as (part' & ptext & Hp' & Hflat).
  rewrite Hp in Hp'. injection Hp' as <-.
  destruct (container_headers_written email_from email_subject email_to
              email_cc email_bcc boundary Hf Hs Ht Hc Hb Hy) as [h Hh].
  cbn [Generator.flatten Generator.flatten_parts].
  rewrite Hflat, Hh. eexists. reflexivity.
Qed.

(** C3 (amended): for every sender, subject and recipient lists that
    are printable ASCII, every body and no attachment, the composer
    returns a mapping with the single key [raw], whose value is the
    URL-safe base64 text of the serialised container.  Whatever the
    input, attachments included, and whatever the generator, a mapping
    the composer returns has exactly the key [raw], its value is the
    URL-safe base64 text of the serialised container, and decoding it
    gives the serialised bytes back; and the composer returns it
    whenever the container is built and serialised.  In the scenario
    (sender "a@x.com", To ["b@x.com"], subject "Test", body "Hello", no
    attachment) the decoded text contains "subject: Test", the header
    name in lower case as the code sets it, and "Hello". *)
Theorem raw_envelope :
  (forall (beyond : nat -> message -> res string)
          (email_from email_subject email_body : string)
          (email_to : list string) (cc bcc atts : option (list string))
          (w : world),
     Generator.printable email_from = true ->
     Generator.printable email_subject = true ->
     Generator.printable (Py.join ", " email_to) = true ->
     Generator.printable (Py.join ", " (resolve default_email_cc w cc)) = true ->
     Generator.printable (Py.join ", " (resolve default_email_bcc w bcc)) = true ->
     resolve default_email_attachments w atts = [] ->
     exists (m : message) (w1 : world) (text : string)
            (payload : gmap string string) (w2 : world),
       container email_from email_subject email_body email_to cc bcc atts w =
         (Ok m, w1) /\
       Generator.as_string beyond (random_state w1) m = Ok text /\
       build_msg_obj guess_type (Generator.as_string beyond)
         email_from email_subject email_body email_to cc bcc atts w =
         (Ok payload, w2) /\
       payload = {[ "raw" := Base64.urlsafe_b64encode (Py.encode text) ]} /\
       dom payload = ({[ "raw" ]} : gset string) /\
       (Base64.urlsafe_b64decode <$> payload) !! "raw" =
         Some (Some (Py.encode text))) /\
  (forall (email_from email_subject email_body : string)
          (email_to : list string) (cc bcc atts : option (list string))
          (w w2 : world) (payload : gmap string string),
     compose email_from email_subject email_body email_to cc bcc atts w =
       (Ok payload, w2) ->
     exists (m : message) (w1 : world) (text : string),
       container email_from email_subject email_body email_to cc bcc atts w =
         (Ok m, w1) /\
       as_string (random_state w1) m = Ok text /\
       payload = {[ "raw" := Base64.urlsafe_b64encode (Py.encode text) ]} /\
       dom payload = ({[ "raw" ]} : gset string) /\
       (Base64.urlsafe_b64decode <$> payload) !! "raw" =
         Some (Some (Py.encode text))) /\
  (forall (email_from email_subject email_body : string)
          (email_to : list string) (cc bcc atts : option (list string))
          (w w1 : world) (m : message) (text : string),
     container email_from email_subject email_body email_to cc bcc atts w = (Ok m, w1) ->
     as_string (random_state w1) m = Ok text ->
     exists (payload : gmap string string) (w2 : world),
       compose email_from email_subject email_body email_to cc bcc atts w =
         (Ok payload, w2) /\
       payload = {[ "raw" := Base64.urlsafe_b64encode (Py.encode text) ]} /\
       dom payload = ({[ "raw" ]} : gset string) /\
       (Base64.urlsafe_b64decode <$> payload) !! "raw" = Some (Some (Py.encode text))) /\
  (forall (beyond : nat -> message -> res string) (w : world),
     exists (raw text : string) (w2 : world),
       build_msg_obj guess_type (Generator.as_string beyond)
         "a@x.com" "Test" "Hello" ["b@x.com"] (Some []) (Some []) (Some []) w =
         (Ok {[ "raw" := raw ]}, w2) /\
       Base64.urlsafe_b64decode raw = Some text /\
       Py.contains "subject: Test" text = true /\
       Py.contains "Hello" text = true).
Proof.
  assert (Henv : forall text : string,
            dom ({[ "raw" := Base64.urlsafe_b64encode (Py.encode text) ]}
                   : gmap string string) = ({[ "raw" ]} : gset string) /\
            (Base64.urlsafe_b64decode <$>
               ({[ "raw" := Base64.urlsafe_b64encode (Py.encode text) ]}
                  : gmap string string)) !! "raw" = Some (Some (Py.encode text))).
  { intros text. split.
    - apply dom_singleton_L.
    - rewrite lookup_fmap, lookup_singleton_eq. cbn.
      now rewrite Base64Facts.urlsafe_b64decode_b64encode. }
  split; [|split; [|split]].
  - intros beyond email_from email_subject email_body email_to cc bcc atts w
      Hf Hs Ht Hc Hb Ha.
    destruct (container_without_attachments email_from email_subject email_body
                email_to cc bcc atts w Ha) as (part & Hp & Hrun).
    destruct (plain_container_flattens email_from email_subject email_body
                email_to _ _
                (Generator.make_boundary
                   (random_state
                      (with_events (events w ++ [EvLog "INFO" "Building Email"]) w)))
                part Hf Hs Ht Hc Hb
                (GeneratorFacts.printable_make_boundary _) Hp) as [text Hflat].
    assert (Hs' : Generator.as_string beyond
                    (random_state
                       (with_events (events w ++ [EvLog "INFO" "Building Email"]) w))
                    (Multipart
                       (container_headers email_from email_subject email_to
                          (resolve default_email_cc w cc)
                          (resolve default_email_bcc w bcc)) [part]) = Ok text).
    { unfold Generator.as_string. now rewrite Hflat. }
    eexists _, _, text, _, _.
    split; [exact Hrun|]. split; [exact Hs'|].
    split.
    + unfold build_msg_obj. erewrite bind_ok by exact Hrun.
      unfold bind, msg_as_string, ret. rewrite Hs'. reflexivity.
    + split; [reflexivity|]. apply Henv.
  - intros email_from email_subject email_body email_to cc bcc atts w w2 payload H.
    destruct (container email_from email_subject email_body email_to cc bcc atts w)
      as [[m|e] w1] eqn:Hc.
    + rewrite (compose_run _ _ _ _ _ _ _ _ _ _ Hc) in H.
      destruct (as_string (random_state w1) m) as [text|e] eqn:Hs;
        [|discriminate].
      injection H as <- _.
      exists m, w1, text. split; [reflexivity|]. split; [exact Hs|].
      split; [reflexivity|]. apply Henv.
    + unfold build_msg_obj in H. erewrite bind_raise in H by exact Hc.
      discriminate.
  - intros email_from email_subject email_body email_to cc bcc atts w w1 m text Hc Hs.
    eexists _, _. split.
    + rewrite (compose_run _ _ _ _ _ _ _ _ _ _ Hc), Hs. reflexivity.
    + split; [reflexivity|]. apply Henv.
  - intros beyond w.
    eexists _, _, _. split; [apply scenario_compose|].
    split; [apply Base64Facts.urlsafe_b64decode_b64encode|].
    destruct (scenario_text_contains (Generator.make_boundary (random_state w)))
      as [H1 H2].
    split; apply PyFacts.contains_encode; auto.
Qed.

(** *** Attachments *)

Lemma guessed_xlsx (fn : string) :
  Py.endswith fn ".xlsx" = true ->
  guessed_content_type guess_type fn = "application/vnd-xls".
Proof.
  intros H. unfold guessed_content_type.
  destruct (guess_type fn) as [t enc]. now rewrite H.
Qed.

Lemma encode_att_ok (fn data : string) (types : string * string) (w : world) :
  unpack2 (Py.split "/" (guessed_content_type guess_type fn)) = Ok types ->
  files w !! fn = Some data ->
  fn ∉ deny_read w ->
  encode_att fn w =
    (encoded (fst types) (snd types) data,
     with_events (events w ++ [EvRead fn]) w).
Proof.
  intros Ht Hf Hr. rewrite encode_att_run, Ht.
  now rewrite (open_rb_read_ok _ _ _ Hf Hr).
Qed.

(** C5: a file whose name ends in ".xlsx" gets the content type
    "application/vnd-xls" whatever the guesser returns (a type, no type,
    or an encoding, which alone would give the generic binary type), and
    once read it is attached as that type; "photo.png", guessed as
    "image/png", is encoded by the image constructor. *)
Theorem xlsx_override_and_image :
  (forall fn : string,
     Py.endswith fn ".xlsx" = true ->
     guessed_content_type guess_type fn = "application/vnd-xls" /\
     forall (w : world) (data : string),
       files w !! fn = Some data ->
       fn ∉ deny_read w ->
       encode_att fn w =
         (Ok (Email.MIMEApplication data "vnd-xls"),
          with_events (events w ++ [EvRead fn]) w) /\
       msg_headers (Email.MIMEApplication data "vnd-xls") !! 0%nat =
         Some ("Content-Type", "application/vnd-xls")) /\
  (guess_type "photo.png" = (Some "image/png", None) ->
   forall (w : world) (data : string),
     files w !! "photo.png" = Some data ->
     "photo.png" ∉ deny_read w ->
     encode_att "photo.png" w =
       (Ok (Email.MIMEImage data "png"),
        with_events (events w ++ [EvRead "photo.png"]) w)).
Proof.
  split.
  - intros fn Hx. split; [now apply guessed_xlsx|].
    intros w data Hf Hr. split; [|reflexivity].
    rewrite (encode_att_ok fn data ("application", "vnd-xls") w);
      [reflexivity| |exact Hf|exact Hr].
    now rewrite guessed_xlsx.
  - intros Hg w data Hf Hr.
    rewrite (encode_att_ok "photo.png" data ("image", "png") w);
      [reflexivity| |exact Hf|exact Hr].
    unfold guessed_content_type. now rewrite Hg.
Qed.

(** A file of a text type is read and handed, as [bytes], to
    [MIMEText], which raises. *)
Lemma text_attachment_raises (fn data sub_type : string) (w : world) :
  unpack2 (Py.split "/" (guessed_content_type guess_type fn)) = Ok ("text", sub_type) ->
  files w !! fn = Some data ->
  fn ∉ deny_read w ->
  fst (encode_att fn w) =
    Raise (AttributeError "'bytes' object has no attribute 'encode'").
Proof.
  intros Ht Hf Hr. now rewrite (encode_att_ok _ _ _ _ Ht Hf Hr).
Qed.

Lemma attach_file_unreadable (fn : string) (acc : message) (w : world) :
  unreadable w fn -> exists e, attach_file fn acc w = (Raise e, w).
Proof.
  intros H. unfold bind. rewrite encode_att_run.
  destruct (unpack2 _); [|eauto].
  rewrite (open_rb_read_unreadable _ _ H). eauto.
Qed.

Lemma loop_unreadable (atts : list string) (fn : string) (acc : message) (w : world) :
  In fn atts ->
  unreadable w fn ->
  exists e w', for_each atts attach_file acc w = (Raise e, w').
Proof.
  revert acc w. induction atts as [|x atts IH]; intros acc w Hin Hu; [destruct Hin|].
  rewrite for_each_cons.
  pose proof (attach_file_only_events x acc w) as Hev.
  destruct (attach_file x acc w) as [[a|e] w1] eqn:E; [|eauto].
  destruct Hin as [->|Hin].
  - destruct (attach_file_unreadable fn acc w Hu) as [e E'].
    rewrite E' in E. discriminate.
  - apply IH; [exact Hin|]. eapply only_events_unreadable; eassumption.
Qed.

Lemma io_error_only_events (w w' : world) (fn : string) :
  only_events w w' -> io_error_of w' fn = io_error_of w fn.
Proof. unfold only_events, io_error_of. now intros ->. Qed.

(** C9 (amended): when a path of the attachment list is missing or may
    not be read, composition raises and produces no payload; there is no
    fallback that leaves the attachment out.  The error is the I/O error
    of that path when the attachments before it were encoded and its
    guessed content type has the form main/sub. *)
Theorem unreadable_attachment_aborts
    (email_from email_subject email_body : string)
    (email_to : list string) (cc bcc : option (list string))
    (atts : list string) (fn : string) (w : world) :
  In fn atts ->
  unreadable w fn ->
  (exists e w',
     compose email_from email_subject email_body email_to cc bcc (Some atts) w =
       (Raise e, w')) /\
  (forall (pre post : list string) (m1 : message) (w1 : world)
          (types : string * string),
     atts = pre ++ fn :: post ->
     container email_from email_subject email_body email_to cc bcc (Some pre) w =
       (Ok m1, w1) ->
     unpack2 (Py.split "/" (guessed_content_type guess_type fn)) = Ok types ->
     exists w',
       compose email_from email_subject email_body email_to cc bcc (Some atts) w =
         (Raise (io_error_of w fn), w') /\
       isinstance (io_error_of w fn) "OSError" = true).
Proof.
  intros Hin Hu. split.
  - destruct (container_run email_from email_subject email_body email_to
                cc bcc (Some atts) w) as (part & _ & Hc).
    cbn [resolve] in Hc.
    edestruct (loop_unreadable atts fn) as (e & w' & Hl);
      [exact Hin| |rewrite Hl in Hc].
    + eapply only_events_unreadable; [apply only_events_with_events|exact Hu].
    + exists e, w'. unfold build_msg_obj. now erewrite bind_raise by exact Hc.
  - intros pre post m1 w1 types -> Hpre Ht.
    destruct (container_run email_from email_subject email_body email_to
                cc bcc (Some (pre ++ fn :: post)) w) as (part & Hp & Hc).
    destruct (container_run email_from email_subject email_body email_to
                cc bcc (Some pre) w) as (part' & Hp' & Hc').
    rewrite Hp in Hp'. injection Hp' as <-.
    cbn [resolve] in Hc, Hc'. rewrite Hc' in Hpre.
    pose proof (loop_only_events pre
                  (Multipart
                     (container_headers email_from email_subject email_to
                        (resolve default_email_cc w cc)
                        (resolve default_email_bcc w bcc)) [part])
                  (with_events (events w ++ [EvLog "INFO" "Building Email"]) w))
      as Hev.
    cbn [resolve] in Hev. rewrite Hpre in Hev. cbn [snd] in Hev.
    assert (only_events w w1) as Hev'
      by (eapply only_events_trans; [apply only_events_with_events|exact Hev]).
    rewrite for_each_app in Hc. erewrite bind_ok in Hc by exact Hpre.
    rewrite for_each_cons in Hc. unfold bind at 1 in Hc.
    rewrite encode_att_run, Ht in Hc.
    rewrite (open_rb_read_unreadable fn w1) in Hc
      by (eapply only_events_unreadable; eassumption).
    rewrite (io_error_only_events _ _ _ Hev') in Hc.
    exists w1. split; [|apply io_error_is_OSError].
    unfold build_msg_obj. now erewrite bind_raise by exact Hc.
Qed.

(** *** Composing twice *)

Lemma container_same_inputs (email_from email_subject email_body : string)
    (email_to : list string) (cc bcc atts : option (list string)) (w w' : world) :
  same_inputs w w' ->
  fst (container email_from email_subject email_body email_to cc bcc atts w) =
  fst (container email_from email_subject email_body email_to cc bcc atts w').
Proof.
  intros H.
  destruct (container_run email_from email_subject email_body email_to
              cc bcc atts w) as (part & Hp & ->).
  destruct (container_run email_from email_subject email_body email_to
              cc bcc atts w') as (part' & Hp' & ->).
  rewrite Hp in Hp'. injection Hp' as <-.
  assert (defaults w = defaults w') as Hd by apply H.
  unfold resolve. rewrite Hd.
  apply loop_same_inputs.
  destruct H as (?&?&?). now repeat split.
Qed.

Lemma compose_same_inputs (email_from email_subject email_body : string)
    (email_to : list string) (cc bcc atts : option (list string)) (w : world) :
  same_inputs w
    (snd (compose email_from email_subject email_body email_to cc bcc atts w)).
Proof.
  pose proof (container_only_events email_from email_subject email_body email_to
                cc bcc atts w) as Hev.
  destruct (container email_from email_subject email_body email_to cc bcc atts w)
    as [[m|e] w1] eqn:Hc; cbn [snd] in Hev.
  - rewrite (compose_run _ _ _ _ _ _ _ _ _ _ Hc).
    apply only_events_same_inputs in Hev.
    destruct (as_string _ _); exact Hev.
  - unfold build_msg_obj. erewrite bind_raise by exact Hc.
    now apply only_events_same_inputs.
Qed.

(** C8: composing does not touch the default list objects (nor the
    files), and two compositions in a row with the same arguments, when
    both return, serialise one and the same message object: same
    headers, in the same order, so that the header blocks differ at most
    in the first line, the Content-Type on which the generator writes
    the boundary it drew.  The code sets no date header. *)
Theorem header_assembly_idempotent
    (email_from email_subject email_body : string)
    (email_to : list string) (cc bcc atts : option (list string)) :
  (forall w : world,
     let w' := snd (compose email_from email_subject email_body email_to
                      cc bcc atts w) in
     defaults w' = defaults w /\ files w' = files w) /\
  (forall (w w1 w2 : world) (d1 d2 : gmap string string),
     compose email_from email_subject email_body email_to cc bcc atts w = (Ok d1, w1) ->
     compose email_from email_subject email_body email_to cc bcc atts w1 = (Ok d2, w2) ->
     exists (m : message) (t1 t2 : string),
       fst (container email_from email_subject email_body email_to cc bcc atts w) = Ok m /\
       fst (container email_from email_subject email_body email_to cc bcc atts w1) = Ok m /\
       msg_headers m =
         container_headers email_from email_subject email_to
           (resolve default_email_cc w cc) (resolve default_email_bcc w bcc) /\
       as_string (random_state w) m = Ok t1 /\
       as_string (S (random_state w)) m = Ok t2 /\
       d1 = {[ "raw" := Base64.urlsafe_b64encode (Py.encode t1) ]} /\
       d2 = {[ "raw" := Base64.urlsafe_b64encode (Py.encode t2) ]} /\
       forall b1 b2 : string,
         drop 1 (Generator.header_lines b1 m) = drop 1 (Generator.header_lines b2 m)).
Proof.
  split.
  - intros w w'.
    destruct (compose_same_inputs email_from email_subject email_body email_to
                cc bcc atts w) as (Hf & _ & Hd).
    now split.
  - intros w w1 w2 d1 d2 H1 H2.
    pose proof (compose_same_inputs email_from email_subject email_body email_to
                  cc bcc atts w) as Hsame.
    rewrite H1 in Hsame. cbn [snd] in Hsame.
    pose proof (container_same_inputs email_from email_subject email_body
                  email_to cc bcc atts w w1 Hsame) as Hfst.
    pose proof (container_only_events email_from email_subject email_body email_to
                  cc bcc atts w) as Hev.
    pose proof (container_only_events email_from email_subject email_body email_to
                  cc bcc atts w1) as Hev1.
    destruct (container email_from email_subject email_body email_to cc bcc atts w)
      as [[m|e] wa] eqn:Hc.
    2:{ unfold build_msg_obj in H1. erewrite bind_raise in H1 by exact Hc.
        discriminate. }
    destruct (container email_from email_subject email_body email_to cc bcc atts w1)
      as [[m'|e'] wb] eqn:Hc1; cbn [fst] in Hfst; [|discriminate].
    injection Hfst as <-. cbn [snd] in Hev, Hev1.
    rewrite (compose_run _ _ _ _ _ _ _ _ _ _ Hc) in H1.
    rewrite (compose_run _ _ _ _ _ _ _ _ _ _ Hc1) in H2.
    assert (random_state wa = random_state w) as Hr by (now rewrite Hev).
    assert (random_state wb = random_state w1) as Hr1 by (now rewrite Hev1).
    rewrite Hr in H1. rewrite Hr1 in H2.
    destruct (as_string (random_state w) m) as [t1|] eqn:E1; [|discriminate].
    injection H1 as <- <-. cbn [random_state with_random_state] in H2.
    destruct (as_string (S (random_state w)) m) as [t2|] eqn:E2; [|discriminate].
    injection H2 as <- _.
    destruct (container_headers_of _ _ _ _ _ _ _ _ _ _ Hc) as [parts ->].
    exists (Multipart
              (container_headers email_from email_subject email_to
                 (resolve default_email_cc w cc) (resolve default_email_bcc w bcc))
              parts), t1, t2.
    repeat split; assumption.
Qed.

(** A readable file of another category is encoded, and attached with
    a Content-Disposition header that carries its name. *)
Lemma other_attachment_attached (fn data : string) (types : string * string)
    (h : list header) (ps : list message) (w : world) :
  unpack2 (Py.split "/" (guessed_content_type guess_type fn)) = Ok types ->
  String.eqb (fst types) "text" = false ->
  files w !! fn = Some data ->
  fn ∉ deny_read w ->
  exists part,
    encoded (fst types) (snd types) data = Ok part /\
    attach_file fn (Multipart h ps) w =
      (Ok (Multipart h
             (ps ++ [Email.setitem "Content-Disposition"
                       ("attachment; " +:+ Email.formatparam "filename" fn) part])),
       with_events (events w ++ [EvRead fn]) w).
Proof.
  intros Ht Hx Hf Hr. unfold bind.
  rewrite (encode_att_ok _ _ _ _ Ht Hf Hr).
  unfold encoded. rewrite Hx.
  split_run; eexists; (split; [reflexivity|]); reflexivity.
Qed.

End ComposerProperties.

(** ** The properties at concrete inputs *)

Lemma fresh_token_no_writes_witness :
  exists w',
    get_gmail_credentials demo_expanduser demo_loads demo_dumps unit
      demo_from_client_secrets demo_run_local_server demo_refresh
      "~/.gmail/gmail_credentials.json" "~/.gmail/gmail_token.pickle"
      (token_world "fresh") = (Ok fresh_credentials, w') /\
    files w' = files (token_world "fresh") /\
    Forall (fun e => is_write e = false) (new_events (token_world "fresh") w') /\
    transitions (new_events (token_world "fresh") w') = [].
Proof.
  apply (fresh_token_no_writes demo_expanduser demo_loads demo_dumps unit
           demo_from_client_secrets demo_run_local_server demo_refresh
           "~/.gmail/gmail_credentials.json" "~/.gmail/gmail_token.pickle"
           "fresh" fresh_credentials (token_world "fresh")).
  - reflexivity.
  - apply not_elem_of_empty.
  - reflexivity.
  - reflexivity.
Defined.

Lemma expired_refreshable_is_refreshed_witness :
  transitions
    (new_events (token_world "stale")
       (snd (get_gmail_credentials demo_expanduser demo_loads demo_dumps unit
               demo_from_client_secrets demo_run_local_server demo_refresh
               "~/.gmail/gmail_credentials.json" "~/.gmail/gmail_token.pickle"
               (token_world "stale")))) = [RefreshToken] /\
  files
    (snd (get_gmail_credentials demo_expanduser demo_loads demo_dumps unit
            demo_from_client_secrets demo_run_local_server demo_refresh
            "~/.gmail/gmail_credentials.json" "~/.gmail/gmail_token.pickle"
            (token_world "stale"))) !! "/home/user/.gmail/gmail_token.pickle" =
    Some "fresh".
Proof.
  destruct (expired_refreshable_is_refreshed demo_expanduser demo_loads demo_dumps
              unit demo_from_client_secrets demo_run_local_server demo_refresh
              "~/.gmail/gmail_credentials.json" "~/.gmail/gmail_token.pickle"
              "stale" stale_credentials (token_world "stale"))
    as [Ht Hp].
  - reflexivity.
  - apply not_elem_of_empty.
  - reflexivity.
  - reflexivity.
  - reflexivity.
  - split; [exact Ht|].
    destruct (Hp (Credentials "fresh" (Some "r1") false)) as (w' & Hrun & Hf & _).
    + reflexivity.
    + apply not_elem_of_empty.
    + rewrite Hrun. cbn [snd]. rewrite Hf. apply lookup_insert_eq.
Defined.

Lemma acquisition_is_state_machine_witness :
  exists w',
    get_gmail_credentials demo_expanduser demo_loads demo_dumps unit
      demo_from_client_secrets demo_run_local_server demo_refresh
      "~/.gmail/gmail_credentials.json" "~/.gmail/gmail_token.pickle"
      secrets_world = (Ok fresh_credentials, w') /\
    files w' =
      <["/home/user/.gmail/gmail_token.pickle" := "fresh"]> (files secrets_world) /\
    new_events secrets_world w' =
      [EvLog "INFO" "Getting Gmail Credentials";
       EvExists "/home/user/.gmail/gmail_token.pickle";
       EvRead "/home/user/.gmail/gmail_credentials.json";
       EvInteractiveFlow "{}";
       EvWrite "/home/user/.gmail/gmail_token.pickle" "fresh"].
Proof.
  destruct (acquisition_is_state_machine demo_expanduser demo_loads demo_dumps
              unit demo_from_client_secrets demo_run_local_server demo_refresh
              "~/.gmail/gmail_credentials.json" "~/.gmail/gmail_token.pickle"
              secrets_world) as (H & _).
  apply (H Absent "{}" tt fresh_credentials).
  - reflexivity.
  - reflexivity.
  - reflexivity.
  - apply not_elem_of_empty.
  - reflexivity.
  - reflexivity.
  - apply not_elem_of_empty.
Defined.

Lemma send_failure_logged_and_reraised_witness :
  send_email rejecting_service {[ "raw" := "QQ==" ]} empty_world =
    (Raise http_error,
     with_events
       [EvLog "INFO" "Sending Email through Gmail";
        EvSend "me" {[ "raw" := "QQ==" ]};
        EvLog "ERROR" "Error: unable to send email through gmail: HttpError 403"]
       empty_world).
Proof.
  apply (send_failure_logged_and_reraised rejecting_service {[ "raw" := "QQ==" ]}
           empty_world http_error).
  - reflexivity.
  - reflexivity.
Defined.


(** The generator writes a field name as the code gave it: in the text
    of the message of To=["a@x.com"], Cc=[], Bcc=[] the three lines
    start with "to", "cc" and "bcc" in lower case, and no line starts
    with "To", "Cc" or "Bcc". *)
Lemma recipient_names_written_lower_case :
  exists (m : message) (w' : world) (text : string),
    build_container (guess_by_extension types_map)
      "me@x.com" "Hi" "Hello" ["a@x.com"] (Some []) (Some []) (Some [])
      empty_world = (Ok m, w') /\
    Generator.flatten (Generator.make_boundary 0) m = Some text /\
    Py.contains ("to: a@x.com" +:+ Py.NL +:+ "cc: " +:+ Py.NL +:+ "bcc: " +:+ Py.NL)
      text = true /\
    Py.contains "To: a@x.com" text = false /\
    Py.contains "Cc:" text = false /\
    Py.contains "Bcc:" text = false.
Proof.
  eexists _, _, _. split; [reflexivity|].
  split; [vm_compute; reflexivity|].
  repeat split; vm_compute; reflexivity.
Qed.

Lemma raw_envelope_witness :
  exists (m : message) (w1 : world) (text : string)
         (payload : gmap string string) (w2 : world),
    build_container (guess_by_extension types_map)
      "a@x.com" "Test" "Hello" ["b@x.com"] (Some []) (Some []) (Some [])
      empty_world = (Ok m, w1) /\
    plain_as_string (random_state w1) m = Ok text /\
    build_msg_obj (guess_by_extension types_map) plain_as_string
      "a@x.com" "Test" "Hello" ["b@x.com"] (Some []) (Some []) (Some [])
      empty_world = (Ok payload, w2) /\
    payload = {[ "raw" := Base64.urlsafe_b64encode (Py.encode text) ]} /\
    dom payload = ({[ "raw" ]} : gset string) /\
    (Base64.urlsafe_b64decode <$> payload) !! "raw" = Some (Some (Py.encode text)).
Proof.
  apply (proj1 (raw_envelope (guess_by_extension types_map) plain_as_string)
           no_text "a@x.com" "Test" "Hello" ["b@x.com"]
           (Some []) (Some []) (Some []) empty_world).
  - reflexivity.
  - reflexivity.
  - reflexivity.
  - reflexivity.
  - reflexivity.
  - reflexivity.
Defined.

(** C3, as stated, fails: in the scenario the decoded text has no
    "Subject: Test". *)
Lemma capitalised_subject_absent :
  exists (raw text : string) (w' : world),
    build_msg_obj (guess_by_extension types_map) plain_as_string
      "a@x.com" "Test" "Hello" ["b@x.com"] (Some []) (Some []) (Some [])
      empty_world = (Ok {[ "raw" := raw ]}, w') /\
    Base64.urlsafe_b64decode raw = Some text /\
    Py.contains "Subject: Test" text = false.
Proof.
  eexists _, _, _. split; [apply (scenario_compose _ no_text)|].
  split; [apply Base64Facts.urlsafe_b64decode_b64encode|].
  vm_compute. reflexivity.
Qed.

Lemma xlsx_override_and_image_witness :
  encode_attachment_for_email (guess_by_extension types_map) "report.xlsx"
    attachments_world =
    (Ok (Email.MIMEApplication "PK" "vnd-xls"),
     with_events [EvRead "report.xlsx"] attachments_world) /\
  encode_attachment_for_email (guess_by_extension types_map) "photo.png"
    attachments_world =
    (Ok (Email.MIMEImage "PNG" "png"),
     with_events [EvRead "photo.png"] attachments_world).
Proof.
  destruct (xlsx_override_and_image (guess_by_extension types_map)) as [Hx Hp].
  split.
  - destruct (Hx "report.xlsx") as [_ H]; [reflexivity|].
    apply (H attachments_world "PK"); [reflexivity|apply not_elem_of_empty].
  - apply (Hp eq_refl attachments_world "PNG");
      [reflexivity|apply not_elem_of_empty].
Defined.

(** C6 (defect of the code): with "notes.txt" present and readable, and
    guessed as "text/plain", composing with that attachment raises
    [AttributeError]: the file is read in binary mode and [MIMEText] is
    given [bytes].  Encoding does not succeed for the text category. *)
Theorem text_attachment_fails :
  files attachments_world !! "notes.txt" = Some "hi" /\
  guess_by_extension types_map "notes.txt" = (Some "text/plain", None) /\
  fst (build_msg_obj (guess_by_extension types_map) plain_as_string
         "a@x.com" "Test" "Hello" ["b@x.com"] (Some []) (Some [])
         (Some ["notes.txt"]) attachments_world) =
    Raise (AttributeError "'bytes' object has no attribute 'encode'").
Proof. repeat split; vm_compute; reflexivity. Qed.

Lemma unreadable_attachment_aborts_witness :
  exists w',
    build_msg_obj (guess_by_extension types_map) plain_as_string
      "a@x.com" "Test" "Hello" ["b@x.com"] (Some []) (Some [])
      (Some ["photo.png"; "missing.pdf"]) attachments_world =
      (Raise (FileNotFoundError "missing.pdf"), w') /\
    isinstance (FileNotFoundError "missing.pdf") "OSError" = true.
Proof.
  destruct (unreadable_attachment_aborts (guess_by_extension types_map)
              plain_as_string "a@x.com" "Test" "Hello" ["b@x.com"]
              (Some []) (Some []) ["photo.png"; "missing.pdf"] "missing.pdf"
              attachments_world) as [_ H].
  - right. left. reflexivity.
  - left. reflexivity.
  - eapply (H ["photo.png"] [] _ _ ("application", "pdf")).
    + reflexivity.
    + vm_compute. reflexivity.
    + reflexivity.
Defined.

(** C9, as stated, fails: with a missing path in the list the error
    raised need not be an I/O error.  A guessed type that is not of the
    form main/sub raises [ValueError] before the file is opened; and a
    readable text file earlier in the list raises [AttributeError]
    before the missing path is reached. *)
Lemma missing_attachment_other_error :
  files attachments_world !! "missing.dat" = None /\
  files attachments_world !! "missing.pdf" = None /\
  fst (build_msg_obj (guess_by_extension odd_types_map) plain_as_string
         "a@x.com" "Test" "Hello" ["b@x.com"] (Some []) (Some [])
         (Some ["missing.dat"]) attachments_world) =
    Raise (ValueError "not enough values to unpack (expected 2, got 1)") /\
  isinstance (ValueError "not enough values to unpack (expected 2, got 1)")
    "OSError" = false /\
  fst (build_msg_obj (guess_by_extension types_map) plain_as_string
         "a@x.com" "Test" "Hello" ["b@x.com"] (Some []) (Some [])
         (Some ["notes.txt"; "missing.pdf"]) attachments_world) =
    Raise (AttributeError "'bytes' object has no attribute 'encode'") /\
  isinstance (AttributeError "'bytes' object has no attribute 'encode'")
    "OSError" = false.
Proof. repeat split; vm_compute; reflexivity. Qed.

Lemma header_assembly_idempotent_witness :
  exists (m : message) (t1 t2 : string),
    msg_headers m = container_headers "a@x.com" "Test" ["b@x.com"] [] [] /\
    plain_as_string 0 m = Ok t1 /\
    plain_as_string 1 m = Ok t2 /\
    forall b1 b2 : string,
      drop 1 (Generator.header_lines b1 m) = drop 1 (Generator.header_lines b2 m).
Proof.
  destruct (proj2 (header_assembly_idempotent (guess_by_extension types_map)
                     plain_as_string "a@x.com" "Test" "Hello" ["b@x.com"]
                     (Some []) (Some []) (Some []))
              empty_world
              (with_random_state 1
                 (with_events [EvLog "INFO" "Building Email"] empty_world))
              (with_random_state 2
                 (with_events [EvLog "INFO" "Building Email";
                               EvLog "INFO" "Building Email"] empty_world))
              {[ "raw" :=
                   Base64.urlsafe_b64encode
                     (Py.encode (scenario_text (Generator.make_boundary 0))) ]}
              {[ "raw" :=
                   Base64.urlsafe_b64encode
                     (Py.encode (scenario_text (Generator.make_boundary 1))) ]})
    as (m & t1 & t2 & _ & _ & Hh & H1 & H2 & _ & _ & Hl).
  - exact (scenario_compose (guess_by_extension types_map) no_text empty_world).
  - exact (scenario_compose (guess_by_extension types_map) no_text
             (with_random_state 1
                (with_events [EvLog "INFO" "Building Email"] empty_world))).
  - exists m, t1, t2. repeat split; assumption.
Defined.

(** * Further properties of the code *)

(** ** Credential acquisition *)

Section CredentialsExtras.

Variable expanduser : string -> string.
Variable pickle_loads : string -> res pyobj.
Variable pickle_dumps : credentials -> string.
Variable Flow : Type.
Variable from_client_secrets : string -> list string -> res Flow.
Variable run_local_server : Flow -> res credentials.
Variable refresh : credentials -> res credentials.

Abbreviation acquire' :=
  (get_gmail_credentials expanduser pickle_loads pickle_dumps Flow
     from_client_secrets run_local_server refresh).
Abbreviation generate' :=
  (generate_gmail_token expanduser Flow from_client_secrets run_local_server).

(** Without a token file, acquisition is the interactive flow and the
    dump, run after the log record and the test for the file. *)
Lemma acquire_absent (cf tf : string) (w : world) :
  files w !! expanduser tf = None ->
  acquire' cf tf w =
    (let* c := generate' (expanduser cf) in
     do pickle_dump pickle_dumps c (expanduser tf) then ret c)
      (with_events
         (events w ++ [EvLog "INFO" "Getting Gmail Credentials";
                       EvExists (expanduser tf)]) w).
Proof.
  intros Hf.
  unfold get_gmail_credentials, logging_info.
  erewrite bind_ok by apply emit_run.
  erewrite bind_ok by apply os_path_exists_run.
  cbn [files with_events].
  rewrite bool_decide_eq_false_2 by (rewrite Hf; intros [x Hx]; discriminate).
  erewrite bind_ok by reflexivity.
  cbn [truthy negb events with_events].
  rewrite <- !app_assoc. reflexivity.
Qed.

(** X1: on a first run (no token file) without a readable client-secrets
    file, acquisition raises the I/O error of that file; the interactive
    flow is not started and no token file is created. *)
Theorem first_run_without_secrets (cf tf : string) (w : world) :
  files w !! expanduser tf = None ->
  unreadable w (expanduser (expanduser cf)) ->
  acquire' cf tf w =
    (Raise (io_error_of w (expanduser (expanduser cf))),
     with_events
       (events w ++ [EvLog "INFO" "Getting Gmail Credentials";
                     EvExists (expanduser tf)]) w) /\
  isinstance (io_error_of w (expanduser (expanduser cf))) "OSError" = true.
Proof.
  intros Hf Hu. split; [|apply io_error_is_OSError].
  rewrite (acquire_absent _ _ _ Hf).
  unfold generate_gmail_token.
  erewrite bind_raise; [reflexivity|].
  erewrite bind_raise; [reflexivity|].
  apply (open_rb_read_unreadable _ (with_events _ w)). exact Hu.
Qed.

Lemma first_run_run (cf tf secrets : string) (flow : Flow)
    (c : credentials) (w : world) :
  files w !! expanduser tf = None ->
  files w !! expanduser (expanduser cf) = Some secrets ->
  expanduser (expanduser cf) ∉ deny_read w ->
  from_client_secrets secrets ["https://mail.google.com/"] = Ok flow ->
  run_local_server flow = Ok c ->
  expanduser tf ∉ deny_write w ->
  acquire' cf tf w =
    (Ok c,
     with_events
       (events w ++
        [EvLog "INFO" "Getting Gmail Credentials"; EvExists (expanduser tf);
         EvRead (expanduser (expanduser cf)); EvInteractiveFlow secrets;
         EvWrite (expanduser tf) (pickle_dumps c)])
       (with_files (<[expanduser tf := pickle_dumps c]> (files w)) w)).
Proof.
  intros Hf Hs Hr Hp Hl Hw.
  rewrite (acquire_absent _ _ _ Hf).
  erewrite bind_ok by (eapply generate_run; eassumption).
  erewrite bind_ok by (apply pickle_dump_ok; exact Hw).
  unfold ret. cbn [events with_events with_files].
  rewrite <- !app_assoc. reflexivity.
Qed.

(** X2: on a first run with a readable client-secrets file and a flow
    that succeeds, acquisition returns the new credential and creates
    the token file with its pickle; the secrets file is read once, the
    flow run once, the token file written once. *)
Theorem first_run_creates_token (cf tf secrets : string) (flow : Flow)
    (c : credentials) (w : world) :
  files w !! expanduser tf = None ->
  files w !! expanduser (expanduser cf) = Some secrets ->
  expanduser (expanduser cf) ∉ deny_read w ->
  from_client_secrets secrets ["https://mail.google.com/"] = Ok flow ->
  run_local_server flow = Ok c ->
  expanduser tf ∉ deny_write w ->
  exists w',
    acquire' cf tf w = (Ok c, w') /\
    files w' = <[expanduser tf := pickle_dumps c]> (files w) /\
    new_events w w' =
      [EvLog "INFO" "Getting Gmail Credentials"; EvExists (expanduser tf);
       EvRead (expanduser (expanduser cf)); EvInteractiveFlow secrets;
       EvWrite (expanduser tf) (pickle_dumps c)].
Proof.
  intros Hf Hs Hr Hp Hl Hw.
  rewrite (first_run_run cf tf secrets flow c w Hf Hs Hr Hp Hl Hw).
  eexists. split; [reflexivity|]. split; [reflexivity|].
  unfold new_events. cbn [events with_events with_files].
  apply drop_app_length.
Qed.

(** X3: a cached credential that is expired and whose refresh token is
    [None] or the empty string is never refreshed: the interactive flow
    runs instead and, when it succeeds, its result replaces the token
    file. *)
Theorem expired_without_token_reauthorises (cf tf data secrets : string)
    (flow : Flow) (c c' : credentials) (w : world) :
  files w !! expanduser tf = Some data ->
  expanduser tf ∉ deny_read w ->
  pickle_loads data = Ok (PyCredentials c) ->
  expired c = true ->
  refresh_token c = None \/ refresh_token c = Some "" ->
  files w !! expanduser (expanduser cf) = Some secrets ->
  expanduser (expanduser cf) ∉ deny_read w ->
  from_client_secrets secrets ["https://mail.google.com/"] = Ok flow ->
  run_local_server flow = Ok c' ->
  expanduser tf ∉ deny_write w ->
  exists w',
    acquire' cf tf w = (Ok c', w') /\
    files w' = <[expanduser tf := pickle_dumps c']> (files w) /\
    transitions (new_events w w') = [InteractiveAuth].
Proof.
  intros Hf Hr Hl He Ht Hs Hrs Hp Hrun Hw.
  assert (truthy_str (refresh_token c) = false) as Hfalse
    by (destruct Ht as [-> | ->]; reflexivity).
  rewrite (acquire_cached _ _ _ _ _ _ _ _ _ _ _ _ Hf Hr Hl), He, Hfalse.
  cbn [andb negb].
  erewrite bind_ok by (eapply generate_run; eassumption).
  erewrite bind_ok by (apply pickle_dump_ok; exact Hw).
  eexists. split; [reflexivity|]. split; [reflexivity|].
  unfold new_events, after_load. cbn [events with_events with_files].
  rewrite <- !app_assoc, drop_app_length. reflexivity.
Qed.

(** X4: the refresh is made before the token file is opened for
    writing.  When that file cannot be written, acquisition raises
    [PermissionError] after the refresh was made; the refreshed
    credential is lost and the token file keeps what it held. *)
Theorem refresh_not_persisted_when_unwritable (cf tf data : string)
    (c c' : credentials) (w : world) :
  files w !! expanduser tf = Some data ->
  expanduser tf ∉ deny_read w ->
  pickle_loads data = Ok (PyCredentials c) ->
  expired c = true ->
  truthy_str (refresh_token c) = true ->
  refresh c = Ok c' ->
  expanduser tf ∈ deny_write w ->
  exists w',
    acquire' cf tf w = (Raise (PermissionError (expanduser tf)), w') /\
    files w' = files w /\
    transitions (new_events w w') = [RefreshToken].
Proof.
  intros Hf Hr Hl He Ht Hc Hw.
  rewrite (acquire_cached _ _ _ _ _ _ _ _ _ _ _ _ Hf Hr Hl), He, Ht.
  cbn [andb].
  erewrite bind_ok by (rewrite credentials_refresh_run, Hc; reflexivity).
  erewrite bind_raise;
    [|unfold pickle_dump, open_wb_write; cbn [deny_write with_events];
      rewrite bool_decide_eq_true_2 by exact Hw; reflexivity].
  eexists. split; [reflexivity|]. split; [reflexivity|].
  unfold new_events, after_load. cbn [events with_events].
  rewrite <- !app_assoc, drop_app_length. reflexivity.
Qed.

(** X5: a token file that exists and does not unpickle makes acquisition
    raise what [pickle.load] raised; there is no fall-back to the
    interactive flow, no refresh, and the file is left as it is. *)
Theorem corrupt_token_propagates (cf tf data : string) (e : exn) (w : world) :
  files w !! expanduser tf = Some data ->
  expanduser tf ∉ deny_read w ->
  pickle_loads data = Raise e ->
  acquire' cf tf w = (Raise e, after_load (expanduser tf) w).
Proof.
  intros Hf Hr Hl.
  unfold get_gmail_credentials, logging_info.
  erewrite bind_ok by apply emit_run.
  erewrite bind_ok by apply os_path_exists_run.
  cbn [files with_events].
  rewrite bool_decide_eq_true_2 by (rewrite Hf; eauto).
  erewrite bind_raise; [|unfold pickle_load;
    erewrite bind_ok by (apply open_rb_read_ok; cbn; eassumption);
    unfold lift; rewrite Hl; reflexivity].
  unfold after_load. cbn [events with_events].
  rewrite <- !app_assoc. reflexivity.
Qed.

(** X6: what acquisition wrote, the next acquisition reads back.  After
    a first run that obtained a credential that is not expired and that
    [pickle] restores, a second run returns the same credential from the
    token file, with no flow, no refresh and no write. *)
Theorem second_run_uses_cache (cf tf secrets : string) (flow : Flow)
    (c : credentials) (w : world) :
  files w !! expanduser tf = None ->
  files w !! expanduser (expanduser cf) = Some secrets ->
  expanduser (expanduser cf) ∉ deny_read w ->
  from_client_secrets secrets ["https://mail.google.com/"] = Ok flow ->
  run_local_server flow = Ok c ->
  expanduser tf ∉ deny_write w ->
  expanduser tf ∉ deny_read w ->
  pickle_loads (pickle_dumps c) = Ok (PyCredentials c) ->
  expired c = false ->
  exists w1 w2,
    acquire' cf tf w = (Ok c, w1) /\
    acquire' cf tf w1 = (Ok c, w2) /\
    files w2 = files w1 /\
    transitions (new_events w1 w2) = [] /\
    Forall (fun e => is_write e = false) (new_events w1 w2).
Proof.
  intros Hf Hs Hr Hp Hl Hw Hrd Hpk He.
  pose proof (first_run_run cf tf secrets flow c w Hf Hs Hr Hp Hl Hw) as H1.
  eexists _, _. split; [exact H1|].
  match goal with |- acquire' _ _ ?w1 = _ /\ _ => set (w1' := w1) in * end.
  assert (files w1' !! expanduser tf = Some (pickle_dumps c)) as Hf1
    by apply lookup_insert_eq.
  assert (expanduser tf ∉ deny_read w1') as Hrd1 by exact Hrd.
  rewrite (acquire_cached _ _ _ _ _ _ _ _ _ _ _ _ Hf1 Hrd1 Hpk), He.
  cbn [andb]. split; [reflexivity|].
  unfold after_load. rewrite new_events_app.
  repeat split. repeat constructor.
Qed.

(** X7: whatever happens, acquisition changes no file other than the
    token file, and changes no permission. *)
Theorem acquisition_touches_token_only (cf tf path : string) (w : world) :
  path <> expanduser tf ->
  let w' := snd (acquire' cf tf w) in
  files w' !! path = files w !! path /\
  deny_read w' = deny_read w /\
  deny_write w' = deny_write w.
Proof.
  intros Hne.
  unfold get_gmail_credentials, generate_gmail_token, credentials_refresh,
    pickle_load, pickle_dump, logging_info, os_path_exists, open_rb_read,
    open_wb_write, lift, emit, raise, bind, ret.
  cbn [files deny_read deny_write with_events with_files].
  split_run; cbn [snd files deny_read deny_write with_events with_files];
    rewrite ?lookup_insert_ne by (intros E; apply Hne; symmetry; exact E);
    auto.
Qed.

End CredentialsExtras.

(** ** Sending *)

(** X16: [send_email] makes the request exactly once and turns no
    failure into a success: it returns normally exactly when the request
    does, raises what the request raised otherwise, whatever its class,
    and changes no file. *)
Theorem send_email_outcome (service : gmail_service)
    (email_msg : gmap string string) (w : world) :
  let run := send_email service email_msg w in
  fst run =
    match send_execute service "me" email_msg with
    | Ok _ => Ok tt
    | Raise e => Raise e
    end /\
  List.filter is_send (new_events w (snd run)) = [EvSend "me" email_msg] /\
  files (snd run) = files w.
Proof.
  unfold send_email, logging_info, logging_exception, try_except_Exception,
    emit, lift, raise, bind, ret, new_events.
  destruct (send_execute service "me" email_msg) as [r|e];
    [|destruct (isinstance e "Exception")];
    cbn [fst snd events with_events files];
    rewrite <- ?app_assoc, drop_app_length; repeat split.
Qed.

(** ** Message composition *)

Lemma with_events_same (w : world) : with_events (events w) w = w.
Proof. now destruct w. Qed.

Lemma last_header_setitem (name value : string) (m : message) :
  last_header name (Email.setitem name value m) = Some value.
Proof.
  unfold last_header, Email.setitem.
  assert (msg_headers (set_headers (msg_headers m ++ [(name, value)]) m) =
          msg_headers m ++ [(name, value)]) as -> by now destruct m.
  rewrite List.filter_app. cbn [List.filter fst].
  rewrite String.eqb_refl, last_snoc. reflexivity.
Qed.

Section ComposerExtras.

Variable guess_type : string -> option string * option string.
Variable as_string : nat -> message -> res string.

Abbreviation encode_att' := (encode_attachment_for_email guess_type).
Abbreviation container' := (build_container guess_type).
Abbreviation compose' := (build_msg_obj guess_type as_string).
Abbreviation attach_file' :=
  (fun (attachment_filename : string) (email_msg : message) =>
     let* attachment := encode_attachment_for_email guess_type attachment_filename in
     let attachment :=
       Email.add_header "Content-Disposition" "attachment"
         [("filename", attachment_filename)] attachment in
     lift (Email.attach attachment email_msg)).

Lemma attachable_only_events (w w' : world) (fn : string) :
  only_events w w' -> attachable guess_type w fn -> attachable guess_type w' fn.
Proof. unfold only_events, attachable. intros ->. exact id. Qed.

Lemma loop_attachable (atts : list string) (h : list header)
    (ps : list message) (w : world) :
  Forall (attachable guess_type w) atts ->
  exists parts,
    for_each atts attach_file' (Multipart h ps) w =
      (Ok (Multipart h (ps ++ parts)),
       with_events (events w ++ map EvRead atts) w) /\
    Forall2 (fun fn part =>
               last_header "Content-Disposition" part = Some (disposition fn))
      atts parts.
Proof.
  revert ps w. induction atts as [|fn atts IH]; intros ps w Hall.
  - exists []. cbn [for_each map]. unfold ret.
    rewrite !app_nil_r, with_events_same. split; [reflexivity|constructor].
  - apply Forall_cons in Hall as [(types & data & Ht & Hx & Hf & Hr) Hall].
    destruct (other_attachment_attached guess_type fn data types h ps w
                Ht Hx Hf Hr) as (part & _ & Hrun).
    rewrite for_each_cons, Hrun.
    destruct (IH (ps ++ [Email.setitem "Content-Disposition"
                           ("attachment; " +:+ Email.formatparam "filename" fn)
                           part])
                (with_events (events w ++ [EvRead fn]) w))
      as (parts & Hloop & Hdisp).
    { eapply Forall_impl; [exact Hall|].
      intros x. apply attachable_only_events, only_events_with_events. }
    eexists (_ :: parts). split.
    + rewrite Hloop. cbn [events with_events map].
      rewrite <- !app_assoc. reflexivity.
    + constructor; [apply last_header_setitem|exact Hdisp].
Qed.

(** X8: when every attachment can be attached (readable, with a guessed
    type main/sub that is not text), the container is built: the body is
    its first part, then one part per attachment in the order of the
    list, each with a Content-Disposition header that carries the name
    of its file; the files are read once each, in that order. *)
Theorem attachments_in_order
    (email_from email_subject email_body : string)
    (email_to : list string) (cc bcc : option (list string))
    (atts : list string) (w : world) :
  Forall (attachable guess_type w) atts ->
  exists body parts,
    Email.MIMEText (PyStr email_body) "plain" = Ok body /\
    container' email_from email_subject email_body email_to cc bcc (Some atts) w =
      (Ok (Multipart
             (container_headers email_from email_subject email_to
                (resolve default_email_cc w cc) (resolve default_email_bcc w bcc))
             (body :: parts)),
       with_events
         (events w ++ EvLog "INFO" "Building Email" :: map EvRead atts) w) /\
    Forall2 (fun fn part =>
               last_header "Content-Disposition" part = Some (disposition fn))
      atts parts.
Proof.
  intros Hall.
  destruct (container_run guess_type email_from email_subject email_body
              email_to cc bcc (Some atts) w) as (body & Hb & ->).
  cbn [resolve].
  edestruct (loop_attachable atts) as (parts & Hloop & Hdisp).
  { eapply Forall_impl; [exact Hall|].
    intros x. apply attachable_only_events, only_events_with_events. }
  exists body, parts. split; [exact Hb|]. split; [|exact Hdisp].
  rewrite Hloop. cbn [events with_events app].
  rewrite <- !app_assoc. reflexivity.
Qed.

(** X9: a guessed content type that does not split into exactly two
    pieces at "/" makes the encoding raise [ValueError] before the file
    is opened: nothing is read, whether the file exists or not. *)
Theorem malformed_type_raises_before_open (fn : string) (w : world) :
  length (Py.split "/" (guessed_content_type guess_type fn)) <> 2 ->
  exists msg, encode_att' fn w = (Raise (ValueError msg), w).
Proof.
  intros Hlen. rewrite encode_att_run.
  destruct (Py.split "/" (guessed_content_type guess_type fn))
    as [|a [|b [|c l]]]; cbn [unpack2]; eauto.
  now contradiction Hlen.
Qed.

(** X10: a readable file for which the guesser gives no type, or gives an
    encoding (a compressed file), and whose name does not end in ".xlsx",
    is attached as application/octet-stream with the bytes as they are:
    the part gets no Content-Transfer-Encoding header and is not base64
    encoded. *)
Theorem unknown_type_attached_raw (fn data : string) (w : world) :
  fst (guess_type fn) = None \/ snd (guess_type fn) <> None ->
  Py.endswith fn ".xlsx" = false ->
  files w !! fn = Some data ->
  fn ∉ deny_read w ->
  encode_att' fn w =
    (Ok (Part [("Content-Type", "application/octet-stream");
               ("MIME-Version", "1.0")] (Escaped data)),
     with_events (events w ++ [EvRead fn]) w).
Proof.
  intros Hg Hx Hf Hr.
  rewrite (encode_att_ok guess_type fn data ("application", "octet-stream") w);
    [reflexivity| |exact Hf|exact Hr].
  unfold guessed_content_type. rewrite Hx.
  destruct (guess_type fn) as [[t|] [enc|]]; cbn [fst snd] in Hg;
    try reflexivity.
  destruct Hg as [Hg|Hg]; [discriminate|now contradiction Hg].
Qed.

Lemma attach_file_text (fn data sub_type : string) (acc : message) (w : world) :
  unpack2 (Py.split "/" (guessed_content_type guess_type fn)) = Ok ("text", sub_type) ->
  files w !! fn = Some data ->
  fn ∉ deny_read w ->
  attach_file' fn acc w =
    (Raise (AttributeError "'bytes' object has no attribute 'encode'"),
     with_events (events w ++ [EvRead fn]) w).
Proof.
  intros Ht Hf Hr. unfold bind.
  now rewrite (encode_att_ok _ _ _ _ _ Ht Hf Hr).
Qed.

(** X11: a readable attachment whose guessed type is text/sub makes the
    whole composition fail, wherever it stands in the list: no payload
    is ever produced for a message with a text attachment. *)
Theorem text_attachment_never_composes
    (email_from email_subject email_body : string)
    (email_to : list string) (cc bcc : option (list string))
    (atts : list string) (fn data sub_type : string) (w : world) :
  In fn atts ->
  unpack2 (Py.split "/" (guessed_content_type guess_type fn)) = Ok ("text", sub_type) ->
  files w !! fn = Some data ->
  fn ∉ deny_read w ->
  exists e w',
    compose' email_from email_subject email_body email_to cc bcc (Some atts) w =
      (Raise e, w').
Proof.
  intros Hin Ht Hf Hr.
  destruct (container_run guess_type email_from email_subject email_body
              email_to cc bcc (Some atts) w) as (body & _ & Hc).
  cbn [resolve] in Hc.
  assert (forall (l : list string) (acc : message) (w0 : world),
            In fn l -> only_events w w0 ->
            exists e w', for_each l attach_file' acc w0 = (Raise e, w'))
    as Hloop.
  { induction l as [|x l IH]; intros acc w0 Hl Hev; [destruct Hl|].
    rewrite for_each_cons.
    pose proof (attach_file_only_events guess_type x acc w0) as Hstep.
    destruct (attach_file' x acc w0) as [[a|e] w1] eqn:E; [|eauto].
    destruct Hl as [->|Hl].
    - rewrite (attach_file_text fn data sub_type acc w0) in E;
        [discriminate|exact Ht| |]; rewrite Hev; assumption.
    - apply IH; [exact Hl|]. eapply only_events_trans; eassumption. }
  destruct (Hloop atts
              (Multipart
                 (container_headers email_from email_subject email_to
                    (resolve default_email_cc w cc)
                    (resolve default_email_bcc w bcc)) [body])
              (with_events (events w ++ [EvLog "INFO" "Building Email"]) w)
              Hin (only_events_with_events _ _)) as (e & w' & Hl).
  cbn [resolve] in Hl. rewrite Hl in Hc. exists e, w'.
  unfold build_msg_obj. now erewrite bind_raise by exact Hc.
Qed.

End ComposerExtras.

(** ** Attachments in base64 *)

Module Base64More.
Import Base64.

Section Alphabet.

Variable alphabet : string.
Hypothesis value_digit :
  forall n, n < 64 -> value alphabet (digit alphabet n) = Some n.
Hypothesis digit_not_pad :
  forall n, n < 64 -> Ascii.eqb (digit alphabet n) pad = false.
Hypothesis digit_not_lf :
  forall n, n < 64 -> Ascii.eqb (digit alphabet n) Py.LF = false.

(** A group of four digits made of three bytes decodes to these bytes,
    whatever follows. *)
Lemma decode_group (a b c : ascii) (rest : string) :
  let x := nat_of_ascii a in
  let y := nat_of_ascii b in
  let z := nat_of_ascii c in
  decode_with alphabet
    (String (digit alphabet (x / 4))
       (String (digit alphabet (x mod 4 * 16 + y / 16))
          (String (digit alphabet (y mod 16 * 4 + z / 64))
             (String (digit alphabet (z mod 64)) rest)))) =
  (fun r => String a (String b (String c r))) <$> decode_with alphabet rest.
Proof.
  intros x y z.
  pose proof (Base64Facts.byte_lt_256 a) as Ha.
  pose proof (Base64Facts.byte_lt_256 b) as Hb.
  pose proof (Base64Facts.byte_lt_256 c) as Hc.
  fold x in Ha. fold y in Hb. fold z in Hc.
  cbn [decode_with].
  rewrite !value_digit by Base64Facts.divmod.
  rewrite digit_not_pad by Base64Facts.divmod.
  destruct (decode_with alphabet rest) as [r|]; [|reflexivity].
  replace (x / 4 * 4 + (x mod 4 * 16 + y / 16) / 16) with x by Base64Facts.divmod.
  replace ((x mod 4 * 16 + y / 16) mod 16 * 16 + (y mod 16 * 4 + z / 64) / 4)
    with y by Base64Facts.divmod.
  replace ((y mod 16 * 4 + z / 64) mod 4 * 64 + z mod 64) with z
    by Base64Facts.divmod.
  subst x y z. now rewrite !ascii_nat_embedding.
Qed.

Lemma decode_encode (s : string) :
  decode_with alphabet (encode_with alphabet s) = Some s.
Proof.
  induction s as [|a|a b|a b c t IH] using Base64Facts.string_ind3.
  - reflexivity.
  - pose proof (Base64Facts.byte_lt_256 a) as Ha.
    cbn [encode_with decode_with].
    rewrite !value_digit by Base64Facts.divmod.
    rewrite Ascii.eqb_refl.
    replace (nat_of_ascii a / 4 * 4 + nat_of_ascii a mod 4 * 16 / 16)
      with (nat_of_ascii a) by Base64Facts.divmod.
    now rewrite ascii_nat_embedding.
  - pose proof (Base64Facts.byte_lt_256 a) as Ha.
    pose proof (Base64Facts.byte_lt_256 b) as Hb.
    cbn [encode_with decode_with].
    rewrite !value_digit by Base64Facts.divmod.
    rewrite Ascii.eqb_refl, digit_not_pad by Base64Facts.divmod.
    set (x := nat_of_ascii a) in *. set (y := nat_of_ascii b) in *.
    replace (x / 4 * 4 + (x mod 4 * 16 + y / 16) / 16) with x
      by Base64Facts.divmod.
    replace ((x mod 4 * 16 + y / 16) mod 16 * 16 + y mod 16 * 4 / 4)
      with y by Base64Facts.divmod.
    subst x y. now rewrite !ascii_nat_embedding.
  - cbn [encode_with]. rewrite decode_group, IH. reflexivity.
Qed.

(** The encoding of a text whose length is a multiple of three has no
    padding, so that decoding goes on with what follows. *)
Lemma decode_encode_app (s rest : string) :
  String.length s mod 3 = 0 ->
  decode_with alphabet (encode_with alphabet s +:+ rest) =
  (fun r => s +:+ r) <$> decode_with alphabet rest.
Proof.
  induction s as [|a|a b|a b c t IH] using Base64Facts.string_ind3; intros Hlen.
  - cbn [encode_with]. change ("" +:+ rest) with rest.
    now destruct (decode_with alphabet rest).
  - discriminate Hlen.
  - discriminate Hlen.
  - cbn [encode_with].
    change (String ?d1 (String ?d2 (String ?d3 (String ?d4 ?e))) +:+ rest)
      with (String d1 (String d2 (String d3 (String d4 (e +:+ rest))))).
    rewrite decode_group, IH.
    + now destruct (decode_with alphabet rest).
    + cbn [String.length] in Hlen.
      replace (S (S (S (String.length t)))) with (String.length t + 1 * 3) in Hlen
        by lia.
      now rewrite Nat.Div0.mod_add in Hlen.
Qed.

Lemma strip_encode (s : string) :
  strip_newlines (encode_with alphabet s) = encode_with alphabet s.
Proof.
  induction s as [|a|a b|a b c t IH] using Base64Facts.string_ind3.
  - reflexivity.
  - pose proof (Base64Facts.byte_lt_256 a) as Ha.
    cbn [encode_with strip_newlines].
    rewrite !digit_not_lf by Base64Facts.divmod. reflexivity.
  - pose proof (Base64Facts.byte_lt_256 a) as Ha.
    pose proof (Base64Facts.byte_lt_256 b) as Hb.
    cbn [encode_with strip_newlines].
    rewrite !digit_not_lf by Base64Facts.divmod. reflexivity.
  - pose proof (Base64Facts.byte_lt_256 a) as Ha.
    pose proof (Base64Facts.byte_lt_256 b) as Hb.
    pose proof (Base64Facts.byte_lt_256 c) as Hc.
    cbn [encode_with strip_newlines].
    rewrite !digit_not_lf by Base64Facts.divmod. now rewrite IH.
Qed.

End Alphabet.

Lemma value_digit_standard (n : nat) :
  n < 64 -> value standard_alphabet (digit standard_alphabet n) = Some n.
Proof.
  intros Hn. do 64 (destruct n as [|n]; [reflexivity|]). lia.
Qed.

Lemma digit_not_pad_standard (n : nat) :
  n < 64 -> Ascii.eqb (digit standard_alphabet n) pad = false.
Proof.
  intros Hn. do 64 (destruct n as [|n]; [reflexivity|]). lia.
Qed.

Lemma digit_not_lf_standard (n : nat) :
  n < 64 -> Ascii.eqb (digit standard_alphabet n) Py.LF = false.
Proof.
  intros Hn. do 64 (destruct n as [|n]; [reflexivity|]). lia.
Qed.

Lemma strip_app (a b : string) :
  strip_newlines (a +:+ b) = strip_newlines a +:+ strip_newlines b.
Proof.
  induction a as [|c a IH]; [reflexivity|].
  change (String c a +:+ b) with (String c (a +:+ b)).
  cbn [strip_newlines]. rewrite IH. now destruct (Ascii.eqb c Py.LF).
Qed.

(** *** Pieces of a string *)

Lemma substring_all (s : string) : substring 0 (String.length s) s = s.
Proof. induction s as [|c s IH]; [reflexivity|]. cbn. now rewrite IH. Qed.

Lemma substring_split (n : nat) (s : string) :
  substring 0 n s +:+ substring n (String.length s - n) s = s.
Proof.
  revert s. induction n as [|n IH]; intros s.
  - rewrite Nat.sub_0_r, substring_all. now destruct s.
  - destruct s as [|c s]; [reflexivity|].
    cbn [substring String.length Nat.sub].
    change (String c ?x +:+ ?y) with (String c (x +:+ y)).
    now rewrite IH.
Qed.

Lemma substring_prefix_length (n : nat) (s : string) :
  n <= String.length s -> String.length (substring 0 n s) = n.
Proof.
  revert s. induction n as [|n IH]; intros s Hn.
  - now destruct s.
  - destruct s as [|c s]; [cbn in Hn; lia|].
    cbn [substring String.length] in *. rewrite IH; lia.
Qed.

Lemma substring_rest_length (n : nat) (s : string) :
  String.length (substring n (String.length s - n) s) = String.length s - n.
Proof.
  revert s. induction n as [|n IH]; intros s.
  - now rewrite Nat.sub_0_r, substring_all.
  - destruct s as [|c s]; [reflexivity|].
    cbn [substring String.length Nat.sub]. apply IH.
Qed.

Lemma substring_short (n : nat) (s : string) :
  String.length s <= n -> substring 0 n s = s.
Proof.
  revert s. induction n as [|n IH]; intros s Hn.
  - destruct s; [reflexivity|cbn in Hn; lia].
  - destruct s as [|c s]; [reflexivity|].
    cbn [substring String.length] in *. rewrite IH; [reflexivity|lia].
Qed.

Lemma length_zero (s : string) : String.length s = 0 -> s = "".
Proof. destruct s; [reflexivity|discriminate]. Qed.

Lemma concat_cons (x : string) (xs : list string) :
  String.concat "" (x :: xs) = x +:+ String.concat "" xs.
Proof.
  destruct xs as [|y ys]; cbn [String.concat].
  - now rewrite PyFacts.append_nil_r.
  - reflexivity.
Qed.

Lemma chunks_empty (fuel n : nat) : Email.chunks fuel n "" = [].
Proof. now destruct fuel. Qed.

(** Decoding the lines that [encodebytes] makes of some bytes gives the
    bytes back. *)
Lemma b64decode_chunks (fuel : nat) (s : string) :
  String.length s <= fuel ->
  b64decode
    (String.concat ""
       (map (fun piece => encode_with standard_alphabet piece +:+ Py.NL)
          (Email.chunks fuel 57 s))) = Some s.
Proof.
  revert s. induction fuel as [|fuel IH]; intros s Hlen.
  - apply Nat.le_0_r, length_zero in Hlen as ->. reflexivity.
  - cbn [Email.chunks].
    destruct (String.eqb s "") eqn:Hs.
    + apply String.eqb_eq in Hs as ->. reflexivity.
    + assert (String.length s <> 0) as Hne.
      { intros H0. apply length_zero in H0. subst s. discriminate Hs. }
      set (a := substring 0 57 s).
      set (r := substring 57 (String.length s - 57) s).
      assert (String.length r <= fuel) as Hr
        by (unfold r; rewrite substring_rest_length; lia).
      specialize (IH r Hr). unfold b64decode in *.
      cbn [map]. rewrite concat_cons, !strip_app.
      rewrite (strip_encode standard_alphabet digit_not_lf_standard).
      change (strip_newlines Py.NL) with "".
      rewrite PyFacts.append_nil_r.
      destruct (Nat.le_gt_cases (String.length s) 57) as [Hshort|Hlong].
      * assert (a = s) as Ha by (apply substring_short; exact Hshort).
        assert (r = "") as Hr0.
        { apply length_zero. unfold r. rewrite substring_rest_length. lia. }
        rewrite Hr0, chunks_empty, Ha. cbn [map String.concat strip_newlines].
        rewrite PyFacts.append_nil_r.
        apply (decode_encode standard_alphabet value_digit_standard
                 digit_not_pad_standard).
      * rewrite (decode_encode_app standard_alphabet value_digit_standard
                   digit_not_pad_standard).
        -- rewrite IH. cbn [fmap option_fmap option_map]. f_equal.
           apply substring_split.
        -- unfold a. rewrite substring_prefix_length by lia. reflexivity.
Qed.

Lemma b64decode_encodebytes (data : string) :
  b64decode (Email.encodebytes data) = Some data.
Proof. apply b64decode_chunks. lia. Qed.

End Base64More.

Section AttachmentExtras.

Variable guess_type : string -> option string * option string.

(** X12: a readable image or audio file, or a file forced to
    application/vnd-xls, becomes a part whose Content-Type is the guessed
    type, whose Content-Transfer-Encoding is base64, and whose payload
    decodes back to the bytes of the file. *)
Theorem base64_attachment_decodes (fn data : string) (types : string * string)
    (w : world) :
  unpack2 (Py.split "/" (guessed_content_type guess_type fn)) = Ok types ->
  fst types = "image" \/ fst types = "audio" \/
    (fst types = "application" /\ snd types = "vnd-xls") ->
  files w !! fn = Some data ->
  fn ∉ deny_read w ->
  exists part payload,
    encode_attachment_for_email guess_type fn w =
      (Ok part, with_events (events w ++ [EvRead fn]) w) /\
    msg_headers part !! 0%nat =
      Some ("Content-Type", fst types +:+ "/" +:+ snd types) /\
    last_header "Content-Transfer-Encoding" part = Some "base64" /\
    text_payload part = Some payload /\
    b64decode payload = Some data.
Proof.
  intros Ht Hm Hf Hr.
  rewrite (encode_att_ok guess_type fn data types w Ht Hf Hr).
  destruct types as [main sub]. cbn [fst snd] in *.
  destruct Hm as [-> | [-> | [-> ->]]];
    eexists _, _; (split; [reflexivity|]);
    (split; [reflexivity|]); (split; [apply last_header_setitem|]);
    (split; [reflexivity|]); apply Base64More.b64decode_encodebytes.
Qed.

End AttachmentExtras.

(** ** The example script *)

Section ScriptExtras.

Variable expanduser : string -> string.
Variable pickle_loads : string -> res pyobj.
Variable pickle_dumps : credentials -> string.
Variable Flow : Type.
Variable from_client_secrets : string -> list string -> res Flow.
Variable run_local_server : Flow -> res credentials.
Variable refresh : credentials -> res credentials.
Variable build : string -> string -> credentials -> res gmail_service.
Variable guess_type : string -> option string * option string.
Variable as_string : nat -> message -> res string.

Abbreviation acquire'' :=
  (get_gmail_credentials expanduser pickle_loads pickle_dumps Flow
     from_client_secrets run_local_server refresh).
Abbreviation main' :=
  (Script.main expanduser pickle_loads pickle_dumps Flow from_client_secrets
     run_local_server refresh build guess_type as_string).
Abbreviation run_script' :=
  (Script.run_script expanduser pickle_loads pickle_dumps Flow
     from_client_secrets run_local_server refresh build guess_type as_string).
Abbreviation keywords' := (Script.build_msg_obj_keywords guess_type as_string).

(** Acquisition sends nothing. *)
Lemma acquire_no_send (cf tf : string) (w : world) :
  exists l,
    events (snd (acquire'' cf tf w)) = events w ++ l /\
    Forall (fun e => is_send e = false) l.
Proof.
  unfold get_gmail_credentials, generate_gmail_token, credentials_refresh,
    pickle_load, pickle_dump, logging_info, os_path_exists, open_rb_read,
    open_wb_write, lift, emit, raise, bind, ret.
  cbn [files deny_read deny_write with_events with_files events].
  split_run; cbn [snd events with_events with_files];
    (eexists; split; [rewrite <- ?app_assoc; reflexivity|repeat constructor]).
Qed.

(** With [None] for the attachments the composer logs, builds the
    container and raises at the loop. *)
Lemma keywords_none (email_from email_subject email_body : string)
    (email_to : list string) (cc bcc : option (list string)) (w : world) :
  keywords' email_from email_subject email_body email_to cc bcc None w =
    (Raise (Script.TypeError "'NoneType' object is not iterable"),
     with_events (events w ++ [EvLog "INFO" "Building Email"]) w).
Proof.
  unfold Script.build_msg_obj_keywords.
  destruct (container_run guess_type email_from email_subject email_body
              email_to (Some (Script.or_empty cc)) (Some (Script.or_empty bcc))
              (Some []) w) as (part & _ & Hc).
  cbn [resolve for_each] in Hc. unfold ret in Hc.
  erewrite bind_ok by exact Hc. reflexivity.
Qed.

(** X13: run without the attachments flag, [main] never sends and never
    returns normally: whatever the world, it raises, and no send request
    is among the events.  (The flag absent gives [None], over which
    [build_msg_obj] cannot loop.) *)
Theorem main_without_attachments_never_sends (opts : Script.options) (w : world) :
  Script.email_attachements opts = None ->
  (exists e, fst (main' opts w) = Raise e) /\
  Forall (fun ev => is_send ev = false) (new_events w (snd (main' opts w))).
Proof.
  intros Hnone.
  assert (exists e w' l,
            main' opts w = (Raise e, w') /\
            events w' = events w ++ l /\
            Forall (fun ev => is_send ev = false) l) as (e & w' & l & Hrun & Hev & Hl).
  { unfold Script.main, logging_info.
    erewrite bind_ok by apply emit_run.
    set (w0 := with_events
                 (events w ++ [EvLog "INFO" "Starting Send Email Process"]) w).
    destruct (acquire_no_send (Script.gmail_credentials_file opts)
                (Script.gmail_token_file opts) w0) as (l & Hev & Hl).
    destruct (acquire'' (Script.gmail_credentials_file opts)
                (Script.gmail_token_file opts) w0) as [[c|e] w1] eqn:E;
      cbn [snd] in Hev.
    - erewrite bind_ok by exact E.
      destruct (get_gmail_service gmail_service build c) as [service|e] eqn:Eb.
      + erewrite bind_ok by reflexivity.
        erewrite bind_raise by (rewrite Hnone; apply keywords_none).
        eexists _, _, _. split; [reflexivity|].
        cbn [events with_events]. rewrite Hev. unfold w0.
        cbn [events with_events]. rewrite <- !app_assoc.
        split; [reflexivity|].
        constructor; [reflexivity|].
        apply Forall_app. split; [exact Hl|repeat constructor].
      + erewrite bind_raise by reflexivity.
        eexists _, _, _. split; [reflexivity|].
        rewrite Hev. unfold w0. cbn [events with_events]. rewrite <- !app_assoc.
        split; [reflexivity|]. constructor; [reflexivity|exact Hl].
    - erewrite bind_raise by exact E.
      eexists _, _, _. split; [reflexivity|].
      rewrite Hev. unfold w0. cbn [events with_events]. rewrite <- !app_assoc.
      split; [reflexivity|]. constructor; [reflexivity|exact Hl]. }
  rewrite Hrun. cbn [fst snd]. split; [eauto|].
  unfold new_events. rewrite Hev, drop_app_length. exact Hl.
Qed.

(** [main] up to the composer, with a credential in the cache that is
    not expired. *)
Lemma main_cached (opts : Script.options) (data : string) (c : credentials)
    (service : gmail_service) (w : world) :
  files w !! expanduser (Script.gmail_token_file opts) = Some data ->
  expanduser (Script.gmail_token_file opts) ∉ deny_read w ->
  pickle_loads data = Ok (PyCredentials c) ->
  expired c = false ->
  build "gmail" "v1" c = Ok service ->
  main' opts w =
    (let* email_msg :=
       keywords' (Script.gmail_account opts) (Script.email_subject opts)
         (Script.email_body opts) (Script.email_to opts) (Script.email_cc opts)
         (Script.email_bcc opts) (Script.email_attachements opts) in
     do send_email service email_msg then
     logging_info "Send Email Process Complete")
      (after_load (expanduser (Script.gmail_token_file opts))
         (with_events
            (events w ++ [EvLog "INFO" "Starting Send Email Process"]) w)).
Proof.
  intros Hf Hr Hl He Hb. unfold Script.main at 1, logging_info at 1.
  erewrite bind_ok by apply emit_run.
  erewrite bind_ok.
  2:{ erewrite acquire_cached; [|exact Hf|exact Hr|exact Hl].
      rewrite He. reflexivity. }
  erewrite bind_ok by (unfold lift, get_gmail_service; rewrite Hb; reflexivity).
  reflexivity.
Qed.



End ScriptExtras.

(** ** The further properties at concrete inputs *)

Lemma first_run_without_secrets_witness :
  get_gmail_credentials demo_expanduser demo_loads demo_dumps unit
    demo_from_client_secrets demo_run_local_server demo_refresh
    "~/.gmail/gmail_credentials.json" "~/.gmail/gmail_token.pickle" empty_world =
    (Raise (io_error_of empty_world
              (demo_expanduser (demo_expanduser "~/.gmail/gmail_credentials.json"))),
     with_events
       (events empty_world ++
        [EvLog "INFO" "Getting Gmail Credentials";
         EvExists (demo_expanduser "~/.gmail/gmail_token.pickle")]) empty_world) /\
  isinstance
    (io_error_of empty_world
       (demo_expanduser (demo_expanduser "~/.gmail/gmail_credentials.json")))
    "OSError" = true.
Proof.
  apply (first_run_without_secrets demo_expanduser demo_loads demo_dumps unit
           demo_from_client_secrets demo_run_local_server demo_refresh).
  - reflexivity.
  - left. reflexivity.
Defined.

Lemma first_run_creates_token_witness :
  exists w',
    get_gmail_credentials demo_expanduser demo_loads demo_dumps unit
      demo_from_client_secrets demo_run_local_server demo_refresh
      "~/.gmail/gmail_credentials.json" "~/.gmail/gmail_token.pickle"
      secrets_world = (Ok fresh_credentials, w') /\
    files w' =
      <[demo_expanduser "~/.gmail/gmail_token.pickle" := demo_dumps fresh_credentials]>
        (files secrets_world) /\
    new_events secrets_world w' =
      [EvLog "INFO" "Getting Gmail Credentials";
       EvExists (demo_expanduser "~/.gmail/gmail_token.pickle");
       EvRead (demo_expanduser (demo_expanduser "~/.gmail/gmail_credentials.json"));
       EvInteractiveFlow "{}";
       EvWrite (demo_expanduser "~/.gmail/gmail_token.pickle")
         (demo_dumps fresh_credentials)].
Proof.
  apply (first_run_creates_token demo_expanduser demo_loads demo_dumps unit
           demo_from_client_secrets demo_run_local_server demo_refresh
           "~/.gmail/gmail_credentials.json" "~/.gmail/gmail_token.pickle"
           "{}" tt fresh_credentials secrets_world).
  - reflexivity.
  - reflexivity.
  - apply not_elem_of_empty.
  - reflexivity.
  - reflexivity.
  - apply not_elem_of_empty.
Defined.

Lemma expired_without_token_reauthorises_witness :
  exists w',
    get_gmail_credentials demo_expanduser demo_loads_dead demo_dumps unit
      demo_from_client_secrets demo_run_local_server demo_refresh
      "~/.gmail/gmail_credentials.json" "~/.gmail/gmail_token.pickle"
      dead_token_world = (Ok fresh_credentials, w') /\
    files w' =
      <[demo_expanduser "~/.gmail/gmail_token.pickle" := demo_dumps fresh_credentials]>
        (files dead_token_world) /\
    transitions (new_events dead_token_world w') = [InteractiveAuth].
Proof.
  apply (expired_without_token_reauthorises demo_expanduser demo_loads_dead
           demo_dumps unit demo_from_client_secrets demo_run_local_server
           demo_refresh
           "~/.gmail/gmail_credentials.json" "~/.gmail/gmail_token.pickle"
           "dead" "{}" tt dead_credentials fresh_credentials dead_token_world).
  - reflexivity.
  - apply not_elem_of_empty.
  - reflexivity.
  - reflexivity.
  - left. reflexivity.
  - reflexivity.
  - apply not_elem_of_empty.
  - reflexivity.
  - reflexivity.
  - apply not_elem_of_empty.
Defined.

Lemma refresh_not_persisted_when_unwritable_witness :
  exists w',
    get_gmail_credentials demo_expanduser demo_loads demo_dumps unit
      demo_from_client_secrets demo_run_local_server demo_refresh
      "~/.gmail/gmail_credentials.json" "~/.gmail/gmail_token.pickle"
      readonly_token_world =
      (Raise (PermissionError (demo_expanduser "~/.gmail/gmail_token.pickle")), w') /\
    files w' = files readonly_token_world /\
    transitions (new_events readonly_token_world w') = [RefreshToken].
Proof.
  apply (refresh_not_persisted_when_unwritable demo_expanduser demo_loads
           demo_dumps unit demo_from_client_secrets demo_run_local_server
           demo_refresh
           "~/.gmail/gmail_credentials.json" "~/.gmail/gmail_token.pickle"
           "stale" stale_credentials (Credentials "fresh" (Some "r1") false)
           readonly_token_world).
  - reflexivity.
  - apply not_elem_of_empty.
  - reflexivity.
  - reflexivity.
  - reflexivity.
  - reflexivity.
  - vm_compute. reflexivity.
Defined.

Lemma corrupt_token_propagates_witness :
  get_gmail_credentials demo_expanduser demo_loads demo_dumps unit
    demo_from_client_secrets demo_run_local_server demo_refresh
    "~/.gmail/gmail_credentials.json" "~/.gmail/gmail_token.pickle"
    (token_world "garbage") =
    (Raise (Exn "UnpicklingError" ["PickleError"; "Exception"; "BaseException"]
              "invalid load key"),
     after_load (demo_expanduser "~/.gmail/gmail_token.pickle")
       (token_world "garbage")).
Proof.
  apply (corrupt_token_propagates demo_expanduser demo_loads demo_dumps unit
           demo_from_client_secrets demo_run_local_server demo_refresh
           "~/.gmail/gmail_credentials.json" "~/.gmail/gmail_token.pickle"
           "garbage").
  - reflexivity.
  - apply not_elem_of_empty.
  - reflexivity.
Defined.

Lemma second_run_uses_cache_witness :
  exists w1 w2,
    get_gmail_credentials demo_expanduser demo_loads demo_dumps unit
      demo_from_client_secrets demo_run_local_server demo_refresh
      "~/.gmail/gmail_credentials.json" "~/.gmail/gmail_token.pickle"
      secrets_world = (Ok fresh_credentials, w1) /\
    get_gmail_credentials demo_expanduser demo_loads demo_dumps unit
      demo_from_client_secrets demo_run_local_server demo_refresh
      "~/.gmail/gmail_credentials.json" "~/.gmail/gmail_token.pickle"
      w1 = (Ok fresh_credentials, w2) /\
    files w2 = files w1 /\
    transitions (new_events w1 w2) = [] /\
    Forall (fun e => is_write e = false) (new_events w1 w2).
Proof.
  apply (second_run_uses_cache demo_expanduser demo_loads demo_dumps unit
           demo_from_client_secrets demo_run_local_server demo_refresh
           "~/.gmail/gmail_credentials.json" "~/.gmail/gmail_token.pickle"
           "{}" tt fresh_credentials secrets_world).
  - reflexivity.
  - reflexivity.
  - apply not_elem_of_empty.
  - reflexivity.
  - reflexivity.
  - apply not_elem_of_empty.
  - apply not_elem_of_empty.
  - reflexivity.
  - reflexivity.
Defined.

Lemma acquisition_touches_token_only_witness :
  files
    (snd (get_gmail_credentials demo_expanduser demo_loads demo_dumps unit
            demo_from_client_secrets demo_run_local_server demo_refresh
            "~/.gmail/gmail_credentials.json" "~/.gmail/gmail_token.pickle"
            secrets_world)) !! "/home/user/.gmail/gmail_credentials.json" =
    files secrets_world !! "/home/user/.gmail/gmail_credentials.json".
Proof.
  apply (acquisition_touches_token_only demo_expanduser demo_loads demo_dumps unit
           demo_from_client_secrets demo_run_local_server demo_refresh
           "~/.gmail/gmail_credentials.json" "~/.gmail/gmail_token.pickle"
           "/home/user/.gmail/gmail_credentials.json" secrets_world).
  vm_compute. intros H. discriminate H.
Defined.

Lemma attachments_in_order_witness :
  exists body parts,
    Email.MIMEText (PyStr "Hello") "plain" = Ok body /\
    build_container (guess_by_extension types_map) "a@x.com" "Test" "Hello"
      ["b@x.com"] (Some []) (Some []) (Some ["photo.png"; "report.xlsx"])
      attachments_world =
      (Ok (Multipart
             (container_headers "a@x.com" "Test" ["b@x.com"]
                (resolve default_email_cc attachments_world (Some []))
                (resolve default_email_bcc attachments_world (Some [])))
             (body :: parts)),
       with_events
         (events attachments_world ++
          EvLog "INFO" "Building Email" :: map EvRead ["photo.png"; "report.xlsx"])
         attachments_world) /\
    Forall2 (fun fn part =>
               last_header "Content-Disposition" part = Some (disposition fn))
      ["photo.png"; "report.xlsx"] parts.
Proof.
  apply (attachments_in_order (guess_by_extension types_map)
           "a@x.com" "Test" "Hello" ["b@x.com"] (Some []) (Some [])
           ["photo.png"; "report.xlsx"] attachments_world).
  repeat constructor.
  - exists ("image", "png"), "PNG".
    repeat split; try reflexivity. apply not_elem_of_empty.
  - exists ("application", "vnd-xls"), "PK".
    repeat split; try reflexivity. apply not_elem_of_empty.
Defined.

Lemma malformed_type_raises_before_open_witness :
  exists msg,
    encode_attachment_for_email (guess_by_extension odd_types_map) "missing.dat"
      attachments_world = (Raise (ValueError msg), attachments_world).
Proof.
  apply (malformed_type_raises_before_open (guess_by_extension odd_types_map)
           "missing.dat" attachments_world).
  vm_compute. intros H. discriminate H.
Defined.

Lemma unknown_type_attached_raw_witness :
  encode_attachment_for_email (guess_by_extension types_map) "blob.bin" blob_world =
    (Ok (Part [("Content-Type", "application/octet-stream");
               ("MIME-Version", "1.0")] (Escaped "xyz")),
     with_events (events blob_world ++ [EvRead "blob.bin"]) blob_world).
Proof.
  apply (unknown_type_attached_raw (guess_by_extension types_map)
           "blob.bin" "xyz" blob_world).
  - left. reflexivity.
  - reflexivity.
  - reflexivity.
  - apply not_elem_of_empty.
Defined.

Lemma text_attachment_never_composes_witness :
  exists e w',
    build_msg_obj (guess_by_extension types_map) plain_as_string
      "a@x.com" "Test" "Hello" ["b@x.com"] (Some []) (Some [])
      (Some ["photo.png"; "notes.txt"]) attachments_world = (Raise e, w').
Proof.
  apply (text_attachment_never_composes (guess_by_extension types_map)
           plain_as_string "a@x.com" "Test" "Hello" ["b@x.com"]
           (Some []) (Some []) ["photo.png"; "notes.txt"] "notes.txt" "hi"
           "plain" attachments_world).
  - right. left. reflexivity.
  - reflexivity.
  - reflexivity.
  - apply not_elem_of_empty.
Defined.

Lemma base64_attachment_decodes_witness :
  exists part payload,
    encode_attachment_for_email (guess_by_extension types_map) "photo.png"
      attachments_world =
      (Ok part,
       with_events (events attachments_world ++ [EvRead "photo.png"])
         attachments_world) /\
    msg_headers part !! 0%nat = Some ("Content-Type", "image" +:+ "/" +:+ "png") /\
    last_header "Content-Transfer-Encoding" part = Some "base64" /\
    text_payload part = Some payload /\
    b64decode payload = Some "PNG".
Proof.
  apply (base64_attachment_decodes (guess_by_extension types_map)
           "photo.png" "PNG" ("image", "png") attachments_world).
  - reflexivity.
  - left. reflexivity.
  - reflexivity.
  - apply not_elem_of_empty.
Defined.

Lemma main_without_attachments_never_sends_witness :
  (exists e,
     fst (Script.main demo_expanduser demo_loads demo_dumps unit
            demo_from_client_secrets demo_run_local_server demo_refresh
            demo_build (guess_by_extension types_map) plain_as_string
            required_options script_world) = Raise e) /\
  Forall (fun ev => is_send ev = false)
    (new_events script_world
       (snd (Script.main demo_expanduser demo_loads demo_dumps unit
               demo_from_client_secrets demo_run_local_server demo_refresh
               demo_build (guess_by_extension types_map) plain_as_string
               required_options script_world))).
Proof.
  apply (main_without_attachments_never_sends demo_expanduser demo_loads
           demo_dumps unit demo_from_client_secrets demo_run_local_server
           demo_refresh demo_build (guess_by_extension types_map)
           plain_as_string required_options script_world).
  reflexivity.
Defined.


